(** * app.py: a FastAPI service with two static routes

    The program is nineteen lines of Python:

    - the module body builds [app = FastAPI()] and registers two handlers,
      [root] on [GET /] and [healthz] on [GET /healthz];
    - run as a script, it reads [PORT] from the environment, converts it
      with [int] and hands it to [uvicorn.run].

    The embedding follows that shape. [Py] holds the part of the Python
    run time the program touches (objects on a heap, [os.environ], the
    [int] constructor for strings). [Http] holds requests, responses and
    the rendering of JSON bodies. [Starlette] holds the routing loop of the
    framework the handlers are registered with, and [FastAPI] what the
    [FastAPI()] constructor and the [app.get] decorator put in the route
    table. [App] is the program itself, and [Spec] the few notions that
    only the statements need. *)

From Stdlib Require Import ZArith Ascii String List Lia.
From stdpp Require Import base option gmap strings list.

Local Open Scope string_scope.
Local Open Scope Z_scope.

(* ===================================================================== *)
(** ** The Python run time *)
(* ===================================================================== *)

Module Py.

(** The only exception the program can meet: [int] on a bad string. *)
Inductive exn : Type :=
  | ValueError.

(** Outcome of running a piece of code. *)
Inductive result (A : Type) : Type :=
  | Ok (a : A)
  | Raise (e : exn).
Arguments Ok {A} a.
Arguments Raise {A} e.

(** A [dict] with [str] keys and values, in insertion order. *)
Definition dict : Type := list (string * string).

(** Objects are addressed by their identity. *)
Definition loc : Type := positive.

(** Names of the functions a route can be bound to. The first two are the
    handlers of app.py, the others the documentation endpoints that
    [FastAPI.setup] defines. *)
Inductive endpoint : Type :=
  | ep_root
  | ep_healthz
  | ep_openapi
  | ep_swagger_ui_html
  | ep_swagger_ui_redirect
  | ep_redoc_html.

(** A registered route: its path, its set of methods and its endpoint. *)
Record route : Type := Route {
  route_path : string;
  route_methods : list string;
  route_endpoint : endpoint
}.

(** The interpreter state the program can see:
    - [heap]: the dicts allocated so far;
    - [environ]: [os.environ]; a [str] is kept as its UTF-8 bytes;
    - [int_max_str_digits]: the limit [sys.get_int_max_str_digits()] on
      str-to-int conversion ([0] switches it off, [4300] is the default);
    - [unicode_decimal]: the decimal digit value the interpreter's Unicode
      database gives to a code point outside ASCII, if any;
    - [app_routes]: [app.router.routes], the route table of the module
      level object [app]. *)
Record interp : Type := Interp {
  heap : gmap loc dict;
  environ : gmap string string;
  int_max_str_digits : nat;
  unicode_decimal : N -> option Z;
  app_routes : list route
}.

Definition with_heap (h : gmap loc dict) (st : interp) : interp :=
  Interp h (environ st) (int_max_str_digits st) (unicode_decimal st) (app_routes st).

Definition with_routes (rs : list route) (st : interp) : interp :=
  Interp (heap st) (environ st) (int_max_str_digits st) (unicode_decimal st) rs.

(** Code is a state transformer that returns a value or raises. *)
Definition M (A : Type) : Type := interp -> result A * interp.

Definition ret {A} (a : A) : M A := fun st => (Ok a, st).

Definition bind {A B} (m : M A) (k : A -> M B) : M B :=
  fun st =>
    match m st with
    | (Ok a, st') => k a st'
    | (Raise e, st') => (Raise e, st')
    end.

Definition raise {A} (e : exn) : M A := fun st => (Raise e, st).

Definition get_state : M interp := fun st => (Ok st, st).

#[global] Instance M_ret : MRet M := @ret.
#[global] Instance M_bind : MBind M := fun A B k m => bind m k.

(** Value and final state of a run. *)
Definition eval {A} (m : M A) (st : interp) : result A := fst (m st).
Definition exec {A} (m : M A) (st : interp) : interp := snd (m st).

(** *** Dict literals *)

(** Evaluating a dict display allocates a new object. *)
Definition new_dict (d : dict) : M loc :=
  fun st =>
    let l := fresh (dom (heap st)) in
    (Ok l, with_heap (<[l := d]> (heap st)) st).

(** Reading a dict back; an address that holds nothing reads as empty. *)
Definition read_dict (l : loc) : M dict :=
  fun st => (Ok (default [] (heap st !! l)), st).

(** The last reference to an object goes away: the object is freed. *)
Definition release (l : loc) : M unit :=
  fun st => (Ok tt, with_heap (delete l (heap st)) st).

(** *** [os.environ.get(key, default)] *)

(** The result is the stored string, or the default passed by the caller,
    which in app.py is the integer literal [8000]. *)
Inductive str_or_int : Type :=
  | PyStr (s : string)
  | PyInt (z : Z).

Definition environ_get (key : string) (dflt : str_or_int) : M str_or_int :=
  st ← get_state;
  mret (match environ st !! key with
        | Some s => PyStr s
        | None => dflt
        end).

(** *** [int(x)] *)

Definition newline : ascii := "010"%char.

(** [Py_ISSPACE]: space, tab, line feed, vertical tab, form feed, return. *)
Definition Py_ISSPACE (c : ascii) : bool :=
  match N_of_ascii c with
  | 9%N | 10%N | 11%N | 12%N | 13%N | 32%N => true
  | _ => false
  end.

(** Value of a decimal digit character. *)
Definition digit_value (c : ascii) : option Z :=
  let n := Z.of_N (N_of_ascii c) in
  if (48 <=? n) && (n <=? 57) then Some (n - 48) else None.

Fixpoint skip_space (s : string) : string :=
  match s with
  | String c s' => if Py_ISSPACE c then skip_space s' else s
  | EmptyString => s
  end.

(** The scanning loop of the conversion: it runs over digits and
    underscores, refuses two underscores in a row, and stops at the first
    other character. It yields the value read, the number of digits, whether
    the last character read was an underscore, and the rest of the string. *)
Fixpoint scan_digits (s : string) (prev_underscore : bool) (acc : Z) (digits : nat)
  : option (Z * nat * bool * string) :=
  match s with
  | String c s' =>
      if Ascii.eqb c "_" then
        if prev_underscore then None
        else scan_digits s' true acc digits
      else
        match digit_value c with
        | Some d => scan_digits s' false (10 * acc + d) (S digits)
        | None => Some (acc, digits, prev_underscore, s)
        end
  | EmptyString => Some (acc, digits, prev_underscore, s)
  end.

(** The length check only looks at inputs of more than [640] digits
    ([str_digits_check_threshold]); a limit of [0] disables it. *)
Definition exceeds_limit (limit digits : nat) : bool :=
  (640 <? digits)%nat && (0 <? limit)%nat && (limit <? digits)%nat.

(** An optional sign in front of the digits. *)
Definition split_sign (s : string) : Z * string :=
  match s with
  | String c r =>
      if Ascii.eqb c "+" then (1, r)
      else if Ascii.eqb c "-" then (-1, r)
      else (1, s)
  | EmptyString => (1, s)
  end.

Definition leading_underscore (s : string) : bool :=
  match s with
  | String c _ => Ascii.eqb c "_"
  | EmptyString => false
  end.

(** The conversion proper, on ASCII text, base 10: optional white space,
    an optional sign, digits with single underscores between them, optional
    white space. [None] stands for the [ValueError]. *)
Definition long_from_string (limit : nat) (s : string) : option Z :=
  let '(sign, s2) := split_sign (skip_space s) in
  if leading_underscore s2 then None
  else
    match scan_digits s2 false 0 0 with
    | None => None
    | Some (v, digits, trailing_underscore, rest) =>
        if trailing_underscore then None
        else if exceeds_limit limit digits then None
        else if (digits =? 0)%nat then None
        else
          match skip_space rest with
          | EmptyString => Some (sign * v)
          | String _ _ => None
          end
    end.

Definition is_ascii (s : string) : bool :=
  forallb (fun c => (N_of_ascii c <? 128)%N) (list_ascii_of_string s).

(** [Py_UNICODE_ISSPACE] on the code points from 127 on. *)
Definition Py_UNICODE_ISSPACE (cp : N) : bool :=
  ((cp =? 133) || (cp =? 160) || (cp =? 5760)
   || ((8192 <=? cp) && (cp <=? 8202))
   || (cp =? 8232) || (cp =? 8233) || (cp =? 8239) || (cp =? 8287)
   || (cp =? 12288))%N.

(** What a code point from 127 on becomes before the conversion: a space,
    an ASCII digit, or nothing, in which case the conversion fails. *)
Definition to_ascii (todecimal : N -> option Z) (cp : N) : option ascii :=
  if Py_UNICODE_ISSPACE cp then Some " "%char
  else
    match todecimal cp with
    | Some d => if (0 <=? d) && (d <=? 9) then Some (ascii_of_N (48 + Z.to_N d)) else None
    | None => None
    end.

(** A decoded code point is well formed when it is not an overlong form
    (it reaches [minimum]), not a surrogate, and within Unicode. *)
Definition well_formed (minimum cp : N) : bool :=
  ((minimum <=? cp) && (cp <=? 1114111) && negb ((55296 <=? cp) && (cp <=? 57343)))%N.

(** Text that is not all ASCII is rewritten character by character: ASCII
    below 127 stays, the other code points go through [to_ascii]. The
    bytes are decoded as UTF-8 on the way; [pending] bytes of the current
    code point are still to come, [cp] holds the bits read so far and
    [minimum] the least code point that needs this many bytes. *)
Fixpoint transform_from (todecimal : N -> option Z)
    (pending : nat) (cp minimum : N) (s : string) : option string :=
  match s with
  | String b r =>
      let n := N_of_ascii b in
      match pending with
      | O =>
          if (n <? 127)%N then
            option_map (String b) (transform_from todecimal 0 0 0 r)
          else if ((194 <=? n) && (n <? 224))%N then
            transform_from todecimal 1 (n - 192) 128 r
          else if ((224 <=? n) && (n <? 240))%N then
            transform_from todecimal 2 (n - 224) 2048 r
          else if ((240 <=? n) && (n <? 245))%N then
            transform_from todecimal 3 (n - 240) 65536 r
          else None
      | S pending' =>
          if ((128 <=? n) && (n <? 192))%N then
            let cp' := (cp * 64 + (n - 128))%N in
            match pending' with
            | O =>
                if well_formed minimum cp' then
                  match to_ascii todecimal cp' with
                  | Some a => option_map (String a) (transform_from todecimal 0 0 0 r)
                  | None => None
                  end
                else None
            | S _ => transform_from todecimal pending' cp' minimum r
            end
          else None
      end
  | EmptyString =>
      match pending with
      | O => Some EmptyString
      | S _ => None
      end
  end.

(** [_PyUnicode_TransformDecimalAndSpaceToASCII]: ASCII text is used as it
    is. *)
Definition transform_to_ascii (todecimal : N -> option Z) (s : string) : option string :=
  if is_ascii s then Some s else transform_from todecimal 0 0 0 s.

(** [int(s)] for a [str]. *)
Definition int_of_str (todecimal : N -> option Z) (limit : nat) (s : string)
  : option Z :=
  match transform_to_ascii todecimal s with
  | Some a => long_from_string limit a
  | None => None
  end.

(** [int(s)] in a given interpreter. *)
Definition int_str (st : interp) (s : string) : option Z :=
  int_of_str (unicode_decimal st) (int_max_str_digits st) s.

(** [int(x)]: an [int] is returned as it is, a [str] is parsed. *)
Definition int (x : str_or_int) : M Z :=
  match x with
  | PyInt z => mret z
  | PyStr s =>
      st ← get_state;
      match int_str st s with
      | Some z => mret z
      | None => raise ValueError
      end
  end.

(** *** The tables of CPython 3.11 *)

(** The code points of the digit zero of each script of Unicode 14.0, other
    than ASCII; the nine digits that follow each have the values 1 to 9. *)
Definition unicode14_zeros : list N :=
  [ 1632; 1776; 1984; 2406; 2534; 2662; 2790; 2918; 3046; 3174; 3302; 3430;
    3558; 3664; 3792; 3872; 4160; 4240; 6112; 6160; 6470; 6608; 6784; 6800;
    6992; 7088; 7232; 7248; 42528; 43216; 43264; 43472; 43504; 43600; 44016;
    65296; 66720; 68912; 69734; 69872; 69942; 70096; 70384; 70736; 70864;
    71248; 71360; 71472; 71904; 72016; 72784; 73040; 73120; 92768; 92864;
    93008; 120782; 120792; 120802; 120812; 120822; 123200; 123632; 125264;
    130032 ]%N.

Definition unicode14_decimal (cp : N) : option Z :=
  match find (fun z => (z <=? cp) && (cp <? z + 10))%N unicode14_zeros with
  | Some z => Some (Z.of_N (cp - z))
  | None => None
  end.

End Py.

(* ===================================================================== *)
(** ** Requests, responses and JSON bodies *)
(* ===================================================================== *)

Module Http.

(** What the server hands to the application for one HTTP request. The path
    is the decoded request path without the query string; the server is
    started without a [root_path], so it is also the path that is routed. *)
Record request : Type := Request {
  method : string;
  path : string;
  query_string : string;
  headers : list (string * string);
  payload : string
}.

(** The pages of the framework's documentation endpoints; their text is
    produced by the framework and left abstract. *)
Inductive document : Type :=
  | OpenAPISchema
  | SwaggerUI
  | SwaggerUIRedirect
  | ReDoc.

Inductive body : Type :=
  | Rendered (bytes : string)
  | Document (d : document).

(** A response: status line and body. *)
Record response : Type := Response {
  status_code : Z;
  response_body : body
}.

Definition quote : string := String "034"%char EmptyString.
Definition backslash : string := String "092"%char EmptyString.

Definition hex_digit (n : N) : ascii :=
  if (n <? 10)%N then ascii_of_N (48 + n) else ascii_of_N (87 + n).

(** [json.dumps] with [ensure_ascii=False]: a string is quoted, with the
    quote, the backslash and the control characters escaped. *)
Definition escape_char (c : ascii) : string :=
  let n := N_of_ascii c in
  if (n =? 34)%N then backslash +:+ quote
  else if (n =? 92)%N then backslash +:+ backslash
  else if (n =? 8)%N then backslash +:+ "b"
  else if (n =? 12)%N then backslash +:+ "f"
  else if (n =? 10)%N then backslash +:+ "n"
  else if (n =? 13)%N then backslash +:+ "r"
  else if (n =? 9)%N then backslash +:+ "t"
  else if (n <? 32)%N then
    backslash +:+ "u00" +:+
      String (hex_digit (n / 16)) (String (hex_digit (n mod 16)) EmptyString)
  else String c EmptyString.

Fixpoint escape (s : string) : string :=
  match s with
  | String c s' => escape_char c +:+ escape s'
  | EmptyString => EmptyString
  end.

Definition dumps_str (s : string) : string := quote +:+ escape s +:+ quote.

Definition dumps_item (kv : string * string) : string :=
  dumps_str (fst kv) +:+ ":" +:+ dumps_str (snd kv).

(** [JSONResponse.render]: compact separators, no indentation. *)
Definition render (d : Py.dict) : string :=
  "{" +:+ String.concat "," (map dumps_item d) +:+ "}".

Definition JSONResponse (content : Py.dict) (status : Z) : response :=
  Response status (Rendered (render content)).

(** [RedirectResponse]: status 307 and an empty body. *)
Definition RedirectResponse : response := Response 307 (Rendered "").

End Http.

(* ===================================================================== *)
(** ** The router *)
(* ===================================================================== *)

Module Starlette.
Import Py Http.

Inductive Match : Type := NONE | PARTIAL | FULL.

(** What the router produces: a response, or an [HTTPException] left to the
    application's exception handler. *)
Inductive outcome : Type :=
  | Responded (r : response)
  | HTTPException (status : Z).

(** [Route.__init__] for an endpoint that is a function: no method list
    means [GET], and [HEAD] is added to a list that has [GET]. Method names
    are given in upper case. *)
Definition Route_init (p : string) (ep : endpoint) (methods : option (list string))
  : route :=
  let ms := match methods with None => ["GET"] | Some ms => ms end in
  Route p (if existsb (String.eqb "GET") ms then ms ++ ["HEAD"] else ms) ep.

(** A path without parameters compiles to the regular expression
    [^path$], and [$] also matches before a line feed that ends the
    string. *)
Definition path_regex_match (pattern p : string) : bool :=
  String.eqb p pattern || String.eqb p (pattern +:+ String newline EmptyString).

Definition method_allowed (r : route) (scope : request) : bool :=
  match route_methods r with
  | [] => true
  | ms => existsb (String.eqb (method scope)) ms
  end.

(** [Route.matches] *)
Definition matches (r : route) (scope : request) : Match :=
  if path_regex_match (route_path r) (path scope) then
    if method_allowed r scope then FULL else PARTIAL
  else NONE.

Definition endswith_slash (s : string) : bool :=
  match rev (list_ascii_of_string s) with
  | c :: _ => Ascii.eqb c "/"
  | [] => false
  end.

(** [s.rstrip("/")] *)
Fixpoint rstrip_slash (s : string) : string :=
  match s with
  | String c s' =>
      match rstrip_slash s' with
      | EmptyString => if Ascii.eqb c "/" then EmptyString else String c EmptyString
      | t => String c t
      end
  | EmptyString => EmptyString
  end.

(** The path the redirect check tries instead of the requested one. *)
Definition redirect_path (p : string) : string :=
  if endswith_slash p then rstrip_slash p else p +:+ "/".

Definition with_path (scope : request) (p : string) : request :=
  Request (method scope) p (query_string scope) (headers scope) (payload scope).

Inductive routing : Type :=
  | Full (r : route)
  | Partial (r : route)
  | NoMatch.

(** The loop of [Router.app]: the first full match wins; otherwise the
    first partial match is kept. *)
Fixpoint route_loop (routes : list route) (scope : request) (partial : option route)
  : routing :=
  match routes with
  | r :: rest =>
      match matches r scope with
      | FULL => Full r
      | PARTIAL =>
          route_loop rest scope (match partial with None => Some r | Some _ => partial end)
      | NONE => route_loop rest scope partial
      end
  | [] =>
      match partial with
      | Some r => Partial r
      | None => NoMatch
      end
  end.

Definition any_match (routes : list route) (scope : request) : bool :=
  existsb (fun r => match matches r scope with NONE => false | _ => true end) routes.

Section Router.

(** How an endpoint is run on a request. *)
Variable call : endpoint -> request -> M response.

(** [Route.handle] *)
Definition Route_handle (r : route) (scope : request) : M outcome :=
  if method_allowed r scope then
    resp ← call (route_endpoint r) scope;
    mret (Responded resp)
  else mret (HTTPException 405).

(** [Router.not_found] inside an application. *)
Definition not_found : M outcome := mret (HTTPException 404).

(** [Router.app] for an HTTP request, with [redirect_slashes] on. *)
Definition Router_app (scope : request) : M outcome :=
  st ← get_state;
  let routes := app_routes st in
  match route_loop routes scope None with
  | Full r => Route_handle r scope
  | Partial r => Route_handle r scope
  | NoMatch =>
      if negb (String.eqb (path scope) "/")
         && any_match routes (with_path scope (redirect_path (path scope)))
      then mret (Responded RedirectResponse)
      else not_found
  end.

End Router.

End Starlette.

(* ===================================================================== *)
(** ** The application object *)
(* ===================================================================== *)

Module FastAPI.
Import Py Http Starlette.

Definition set_routes (rs : list route) : M unit :=
  fun st => (Ok tt, with_routes rs st).

Definition append_route (r : route) : M unit :=
  st ← get_state;
  set_routes (app_routes st ++ [r]).

(** [app.add_route(path, endpoint)]: a plain route, for [GET] and [HEAD]. *)
Definition add_route (p : string) (ep : endpoint) : M unit :=
  append_route (Route_init p ep None).

(** [FastAPI.setup] with the constructor's defaults
    [openapi_url="/openapi.json"], [docs_url="/docs"],
    [swagger_ui_oauth2_redirect_url="/docs/oauth2-redirect"] and
    [redoc_url="/redoc"]. *)
Definition setup : M unit :=
  add_route "/openapi.json" ep_openapi ;;
  add_route "/docs" ep_swagger_ui_html ;;
  add_route "/docs/oauth2-redirect" ep_swagger_ui_redirect ;;
  add_route "/redoc" ep_redoc_html.

(** [FastAPI()]: an empty router, then [setup]. *)
Definition init : M unit :=
  set_routes [] ;;
  setup.

(** [@app.get(path)]: an [APIRoute] whose method set is exactly [GET]. *)
Definition get (p : string) (ep : endpoint) : M unit :=
  append_route (Route p ["GET"] ep).

(** [http.HTTPStatus(code).phrase] for the codes the router raises. *)
Definition phrase (code : Z) : string :=
  match code with
  | 404 => "Not Found"
  | 405 => "Method Not Allowed"
  | _ => ""
  end.

(** The handler installed for [HTTPException]. *)
Definition http_exception_handler (code : Z) : response :=
  JSONResponse [("detail", phrase code)] code.

(** The request handler built around a path operation function: the
    function is called without arguments, and the dict it returns is sent
    as a [JSONResponse] with status 200. Once the body is rendered nothing
    refers to the dict any more. *)
Definition run_endpoint_function (f : M loc) : M response :=
  l ← f;
  content ← read_dict l;
  release l ;;
  mret (JSONResponse content 200).

Section Application.

Variable call : endpoint -> request -> M response.

(** One request through the application: the router, then the exception
    handler for what the router raised. *)
Definition handle (scope : request) : M response :=
  o ← Router_app call scope;
  mret (match o with
        | Responded resp => resp
        | HTTPException code => http_exception_handler code
        end).

End Application.

End FastAPI.

(* ===================================================================== *)
(** ** app.py *)
(* ===================================================================== *)

Module App.
Import Py Http Starlette.

(** [def root(): return {"message": "Hello from FastAPI on AKS!"}] *)
Definition root : M loc :=
  new_dict [("message", "Hello from FastAPI on AKS!")].

(** [def healthz(): return {"status": "ok"}] *)
Definition healthz : M loc :=
  new_dict [("status", "ok")].

(** The module body: [app = FastAPI()] and the two decorated handlers. *)
Definition module_body : M unit :=
  FastAPI.init ;;
  FastAPI.get "/" ep_root ;;
  FastAPI.get "/healthz" ep_healthz.

(** The arguments [uvicorn.run] is called with. The call itself (binding
    the socket, the accept loop) belongs to the server and the operating
    system. *)
Record uvicorn_run : Type := UvicornRun {
  run_app : string;
  run_host : string;
  run_port : Z
}.

(** The body of [if __name__ == "__main__":]. *)
Definition main : M uvicorn_run :=
  v ← environ_get "PORT" (PyInt 8000);
  port ← int v;
  mret (UvicornRun "app:app" "0.0.0.0" port).

(** [python app.py]: the module body, then [main]. *)
Definition script : M uvicorn_run :=
  module_body ;;
  main.

(** The code behind each endpoint name. The request is passed to the
    documentation endpoints only; [root] and [healthz] take no argument. *)
Definition call (ep : endpoint) (req : request) : M response :=
  match ep with
  | ep_root => FastAPI.run_endpoint_function root
  | ep_healthz => FastAPI.run_endpoint_function healthz
  | ep_openapi => mret (Response 200 (Document OpenAPISchema))
  | ep_swagger_ui_html => mret (Response 200 (Document SwaggerUI))
  | ep_swagger_ui_redirect => mret (Response 200 (Document SwaggerUIRedirect))
  | ep_redoc_html => mret (Response 200 (Document ReDoc))
  end.

(** The application answering one request. *)
Definition handle_request (req : request) : M response :=
  FastAPI.handle call req.

(** The application answering requests one after the other. *)
Fixpoint serve (reqs : list request) : M (list response) :=
  match reqs with
  | req :: rest =>
      resp ← handle_request req;
      resps ← serve rest;
      mret (resp :: resps)
  | [] => mret []
  end.

(** The state of the server after the module was loaded in [st0] and the
    requests [history] were answered. *)
Definition running (st0 : interp) (history : list request) : interp :=
  exec (module_body ;; serve history) st0.

(** The route table the module body builds. *)
Definition routes : list route :=
  [ Route "/openapi.json" ["GET"; "HEAD"] ep_openapi;
    Route "/docs" ["GET"; "HEAD"] ep_swagger_ui_html;
    Route "/docs/oauth2-redirect" ["GET"; "HEAD"] ep_swagger_ui_redirect;
    Route "/redoc" ["GET"; "HEAD"] ep_redoc_html;
    Route "/" ["GET"] ep_root;
    Route "/healthz" ["GET"] ep_healthz ].

(** The two response bodies, as bytes. *)
Definition root_body : string :=
  "{" +:+ quote +:+ "message" +:+ quote +:+ ":" +:+
  quote +:+ "Hello from FastAPI on AKS!" +:+ quote +:+ "}".

Definition healthz_body : string :=
  "{" +:+ quote +:+ "status" +:+ quote +:+ ":" +:+ quote +:+ "ok" +:+ quote +:+ "}".

End App.

(* ===================================================================== *)
(** ** Notions used to state the properties *)
(* ===================================================================== *)

Module Spec.
Import Py Http Starlette App.

(** A decimal integer string such as [9000]: one or more digits. *)
Definition is_digit (c : ascii) : bool :=
  let n := N_of_ascii c in (48 <=? n)%N && (n <=? 57)%N.

Fixpoint all_digits (s : string) : bool :=
  match s with
  | String c s' => is_digit c && all_digits s'
  | EmptyString => true
  end.

Definition is_decimal (s : string) : bool :=
  match s with
  | String _ _ => all_digits s
  | EmptyString => false
  end.

(** The number a string of digits denotes, read after the prefix [acc]. *)
Fixpoint decimal_from (acc : Z) (s : string) : Z :=
  match s with
  | String c s' => decimal_from (10 * acc + (Z.of_N (N_of_ascii c) - 48)) s'
  | EmptyString => acc
  end.

Definition decimal_value (s : string) : Z := decimal_from 0 s.

(** A string of [n] digits [1]. *)
Definition ones (n : nat) : string := string_of_list_ascii (repeat "1"%char n).

(** The characters that can occur in a string [int] accepts: digits, white
    space, the two signs and the underscore. *)
Definition is_int_char (c : ascii) : bool :=
  is_digit c || Py_ISSPACE c || Ascii.eqb c "+" || Ascii.eqb c "-" || Ascii.eqb c "_".

(** The path [p] is the path of a registered route, or that path followed
    by a single line feed. *)
Definition names_route (p : string) : Prop :=
  exists r, In r routes /\
    (p = route_path r \/ p = route_path r +:+ String newline EmptyString).

(** Nothing the program can observe differs between the two states, apart
    from objects allocated since: the old objects, the environment, the
    settings of [int] and the route table are the same. *)
Definition preserved (st st' : interp) : Prop :=
  (forall l d, heap st !! l = Some d -> heap st' !! l = Some d) /\
  environ st' = environ st /\
  int_max_str_digits st' = int_max_str_digits st /\
  unicode_decimal st' = unicode_decimal st /\
  app_routes st' = app_routes st.

(** An interpreter as CPython 3.11 starts it in the environment [env]:
    the default conversion limit, the digits of Unicode 14.0, an empty heap
    and nothing loaded. *)
Definition fresh_interp (env : gmap string string) : interp :=
  Interp ∅ env 4300 unicode14_decimal [].

Definition GET (p : string) : request := Request "GET" p "" [] "".

(** The status of the answer to [req] in the state [st], if there is an
    answer. *)
Definition status (st : interp) (req : request) : option Z :=
  match eval (handle_request req) st with
  | Ok resp => Some (status_code resp)
  | Raise _ => None
  end.

(** The route [r] is registered and its pattern matches the path [p]. *)
Definition route_at (p : string) (r : route) : Prop :=
  In r routes /\
    (p = route_path r \/ p = route_path r +:+ String newline EmptyString).

(** [k] slashes. *)
Fixpoint slashes (k : nat) : string :=
  match k with
  | O => EmptyString
  | S k' => String "/" (slashes k')
  end.

(** Text made of white space only; the empty text is one. *)
Fixpoint all_space (s : string) : bool :=
  match s with
  | String c s' => Py_ISSPACE c && all_space s'
  | EmptyString => true
  end.

(** The integer literals of base 10: white space, an optional sign, groups
    of digits separated by single underscores, white space. *)
Inductive sign : Type := NoSign | Plus | Minus.

Definition sign_text (sg : sign) : string :=
  match sg with
  | NoSign => ""
  | Plus => "+"
  | Minus => "-"
  end.

Definition sign_factor (sg : sign) : Z :=
  match sg with
  | Minus => -1
  | NoSign | Plus => 1
  end.

Definition literal (ws1 : string) (sg : sign) (groups : list string) (ws2 : string)
  : string :=
  ws1 +:+ sign_text sg +:+ String.concat "_" groups +:+ ws2.

(** The digits of a literal, without the underscores. *)
Definition digits_of (groups : list string) : string := String.concat "" groups.

(** One group of digits at least, and no empty group. *)
Definition groups_ok (groups : list string) : bool :=
  match groups with
  | [] => false
  | _ :: _ => forallb is_decimal groups
  end.

End Spec.

(* ===================================================================== *)
(** ** Properties *)
(* ===================================================================== *)

Import Py Http Starlette App Spec.

(** *** The monad *)

Lemma eval_bind_ok {A B} (m : M A) (k : A -> M B) st a st' :
  m st = (Ok a, st') -> (m ≫= k) st = k a st'.
Proof. intros H. unfold mbind, M_bind, bind. now rewrite H. Qed.

(** *** Loading the module *)

Lemma module_body_run st0 :
  module_body st0 =
    (Ok tt, with_routes routes st0).
Proof. reflexivity. Qed.

(** *** Handlers and the heap *)

Lemma fresh_loc_unused (h : gmap loc dict) : h !! fresh (dom h) = None.
Proof. apply not_elem_of_dom, is_fresh. Qed.

Lemma with_heap_id st : with_heap (heap st) st = st.
Proof. now destruct st. Qed.

Lemma with_heap_twice h h' st : with_heap h (with_heap h' st) = with_heap h st.
Proof. reflexivity. Qed.

(** A handler that only builds a dict yields that dict as a JSON body and
    leaves the interpreter as it found it. *)
Lemma run_endpoint_function_new_dict d st :
  FastAPI.run_endpoint_function (new_dict d) st = (Ok (JSONResponse d 200), st).
Proof.
  unfold FastAPI.run_endpoint_function, new_dict, read_dict, release.
  unfold mbind, M_bind, bind, mret, M_ret, ret. cbn.
  rewrite lookup_insert_eq. cbn.
  rewrite delete_insert_eq, delete_id by apply fresh_loc_unused.
  now rewrite with_heap_twice, with_heap_id.
Qed.

Lemma call_ok ep req st : exists resp, call ep req st = (Ok resp, st).
Proof.
  destruct ep; cbn [call]; unfold root, healthz;
    rewrite ?run_endpoint_function_new_dict; eauto.
Qed.

Lemma handle_request_state req st : exec (handle_request req) st = st.
Proof.
  unfold exec, handle_request, FastAPI.handle, Router_app, Route_handle, not_found.
  unfold mbind, M_bind, bind, mret, M_ret, ret, get_state. cbn.
  destruct (route_loop (app_routes st) req None) as [r|r|].
  - destruct (method_allowed r req); [|reflexivity].
    destruct (call_ok (route_endpoint r) req st) as [resp ->]. reflexivity.
  - destruct (method_allowed r req); [|reflexivity].
    destruct (call_ok (route_endpoint r) req st) as [resp ->]. reflexivity.
  - destruct (_ && _); reflexivity.
Qed.

Lemma handle_request_ok req st : exists resp, handle_request req st = (Ok resp, st).
Proof.
  pose proof (handle_request_state req st) as Hst. unfold exec in Hst.
  destruct (handle_request req st) as [[resp|e] st'] eqn:E; cbn in Hst; subst.
  - eauto.
  - exfalso. revert E.
    unfold handle_request, FastAPI.handle, Router_app, Route_handle, not_found.
    unfold mbind, M_bind, bind, mret, M_ret, ret, get_state. cbn.
    destruct (route_loop (app_routes st) req None) as [r|r|].
    + destruct (method_allowed r req); [|discriminate].
      destruct (call_ok (route_endpoint r) req st) as [resp ->]. discriminate.
    + destruct (method_allowed r req); [|discriminate].
      destruct (call_ok (route_endpoint r) req st) as [resp ->]. discriminate.
    + destruct (_ && _); discriminate.
Qed.

Lemma serve_ok reqs st : exists resps, serve reqs st = (Ok resps, st).
Proof.
  induction reqs as [|req rest [resps IH]]; cbn [serve].
  - now exists [].
  - destruct (handle_request_ok req st) as [resp Hreq].
    exists (resp :: resps).
    rewrite (eval_bind_ok _ _ _ _ _ Hreq), (eval_bind_ok _ _ _ _ _ IH).
    reflexivity.
Qed.

(** Answering requests never changes the state the module body left. *)
Lemma running_state st0 history :
  running st0 history = with_routes routes st0.
Proof.
  unfold running, exec.
  rewrite (eval_bind_ok _ _ _ _ _ (module_body_run st0)).
  destruct (serve_ok history (with_routes routes st0)) as [resps ->].
  reflexivity.
Qed.

Lemma running_routes st0 history : app_routes (running st0 history) = routes.
Proof. now rewrite running_state. Qed.

(** *** Routing *)

Lemma path_regex_match_spec pattern p :
  path_regex_match pattern p = true <->
  p = pattern \/ p = pattern +:+ String newline EmptyString.
Proof.
  unfold path_regex_match. rewrite orb_true_iff, !String.eqb_eq. tauto.
Qed.

Lemma matches_NONE r req :
  path_regex_match (route_path r) (path req) = false -> matches r req = NONE.
Proof. unfold matches. now intros ->. Qed.

Lemma route_loop_unmatched rs req partial :
  (forall r, In r rs -> path_regex_match (route_path r) (path req) = false) ->
  route_loop rs req partial =
    match partial with Some r => Partial r | None => NoMatch end.
Proof.
  induction rs as [|r rs IH]; intros H; cbn [route_loop].
  - reflexivity.
  - rewrite matches_NONE by (apply H; now left).
    apply IH. intros r' Hr'. apply H. now right.
Qed.

Lemma any_match_unmatched rs req :
  (forall r, In r rs -> path_regex_match (route_path r) (path req) = false) ->
  any_match rs req = false.
Proof.
  induction rs as [|r rs IH]; intros H; cbn [any_match existsb].
  - reflexivity.
  - rewrite matches_NONE by (apply H; now left). cbn.
    apply IH. intros r' Hr'. apply H. now right.
Qed.

Lemma not_names_route p r :
  ~ names_route p -> In r routes -> path_regex_match (route_path r) p = false.
Proof.
  intros Hp Hr. destruct (path_regex_match (route_path r) p) eqn:E; [|reflexivity].
  exfalso. apply Hp. exists r. split; [assumption|].
  now apply path_regex_match_spec.
Qed.

(** The three ways a request leaves the router. *)
Lemma handle_request_full req st r resp :
  route_loop (app_routes st) req None = Full r ->
  method_allowed r req = true ->
  call (route_endpoint r) req st = (Ok resp, st) ->
  handle_request req st = (Ok resp, st).
Proof.
  intros Hloop Hm Hcall.
  unfold handle_request, FastAPI.handle, Router_app, Route_handle.
  unfold mbind, M_bind, bind, mret, M_ret, ret, get_state. cbn.
  now rewrite Hloop, Hm, Hcall.
Qed.

Lemma handle_request_partial req st r :
  route_loop (app_routes st) req None = Partial r ->
  method_allowed r req = false ->
  handle_request req st = (Ok (FastAPI.http_exception_handler 405), st).
Proof.
  intros Hloop Hm.
  unfold handle_request, FastAPI.handle, Router_app, Route_handle.
  unfold mbind, M_bind, bind, mret, M_ret, ret, get_state. cbn.
  now rewrite Hloop, Hm.
Qed.

Lemma handle_request_unmatched req st :
  route_loop (app_routes st) req None = NoMatch ->
  negb (String.eqb (path req) "/")
    && any_match (app_routes st) (with_path req (redirect_path (path req))) = false ->
  handle_request req st = (Ok (FastAPI.http_exception_handler 404), st).
Proof.
  intros Hloop Hredirect.
  unfold handle_request, FastAPI.handle, Router_app, not_found.
  unfold mbind, M_bind, bind, mret, M_ret, ret, get_state. cbn.
  now rewrite Hloop, Hredirect.
Qed.

(** What the two handlers of app.py answer, whatever else the request
    carries. *)
Lemma get_root st m q h b :
  app_routes st = routes -> m = "GET" ->
  handle_request (Request m "/" q h b) st =
    (Ok (JSONResponse [("message", "Hello from FastAPI on AKS!")] 200), st).
Proof.
  intros Hr ->.
  apply handle_request_full with (r := Route "/" ["GET"] ep_root).
  - rewrite Hr. reflexivity.
  - reflexivity.
  - apply run_endpoint_function_new_dict.
Qed.

Lemma get_healthz st m q h b :
  app_routes st = routes -> m = "GET" ->
  handle_request (Request m "/healthz" q h b) st =
    (Ok (JSONResponse [("status", "ok")] 200), st).
Proof.
  intros Hr ->.
  apply handle_request_full with (r := Route "/healthz" ["GET"] ep_healthz).
  - rewrite Hr. reflexivity.
  - reflexivity.
  - apply run_endpoint_function_new_dict.
Qed.

(** *** C1 and C2: the two routes *)

(** C1. Whatever state the interpreter started in and whatever requests
    were answered before, a request with method GET and path [/] is
    answered with status 200 and, as body, the JSON object whose only member
    is [message], with value [Hello from FastAPI on AKS!]; the bytes of that
    body are [root_body]. *)
Theorem root_get_200 (st0 : interp) (history : list request) (req : request) :
  method req = "GET" ->
  path req = "/" ->
  eval (handle_request req) (running st0 history) =
    Ok (JSONResponse [("message", "Hello from FastAPI on AKS!")] 200)
  /\ JSONResponse [("message", "Hello from FastAPI on AKS!")] 200 =
     Response 200 (Rendered root_body).
Proof.
  intros Hm Hp. split; [|reflexivity].
  destruct req as [m p q h b]; cbn in Hm, Hp; subst p.
  unfold eval. now rewrite get_root by (apply running_routes || assumption).
Qed.

Lemma root_get_200_witness :
  eval (handle_request (GET "/")) (running (fresh_interp ∅) []) =
    Ok (JSONResponse [("message", "Hello from FastAPI on AKS!")] 200)
  /\ JSONResponse [("message", "Hello from FastAPI on AKS!")] 200 =
     Response 200 (Rendered root_body).
Proof. apply root_get_200; reflexivity. Defined.

(** C2. Whatever state the interpreter started in and whatever requests
    were answered before, a request with method GET and path [/healthz] is
    answered with status 200 and, as body, the JSON object whose only member
    is [status], with value [ok]; the bytes of that body are
    [healthz_body]. *)
Theorem healthz_get_200 (st0 : interp) (history : list request) (req : request) :
  method req = "GET" ->
  path req = "/healthz" ->
  eval (handle_request req) (running st0 history) =
    Ok (JSONResponse [("status", "ok")] 200)
  /\ JSONResponse [("status", "ok")] 200 = Response 200 (Rendered healthz_body).
Proof.
  intros Hm Hp. split; [|reflexivity].
  destruct req as [m p q h b]; cbn in Hm, Hp; subst p.
  unfold eval. now rewrite get_healthz by (apply running_routes || assumption).
Qed.

Lemma healthz_get_200_witness :
  eval (handle_request (GET "/healthz")) (running (fresh_interp ∅) []) =
    Ok (JSONResponse [("status", "ok")] 200)
  /\ JSONResponse [("status", "ok")] 200 = Response 200 (Rendered healthz_body).
Proof. apply healthz_get_200; reflexivity. Defined.

(** *** C5: paths no route answers *)

(** Three paths other than [/] and [/healthz] that are not answered with
    404: the documentation page the constructor registers, a registered
    path with a slash added, and a registered path followed by a line
    feed. *)
Lemma other_paths_not_all_404 :
  path (GET "/docs") <> "/" /\ path (GET "/docs") <> "/healthz"
  /\ eval (handle_request (GET "/docs")) (running (fresh_interp ∅) []) =
    Ok (Response 200 (Document SwaggerUI))
  /\ eval (handle_request (GET "/healthz/")) (running (fresh_interp ∅) []) =
    Ok (Response 307 (Rendered ""))
  /\ eval (handle_request (GET ("/healthz" +:+ String newline EmptyString)))
          (running (fresh_interp ∅) []) =
    Ok (Response 200 (Rendered healthz_body)).
Proof. repeat split; try discriminate; vm_compute; reflexivity. Qed.

(** C5, amended. A request, of any method, whose path does not name a
    registered route ([/], [/healthz] and the four documentation paths, each
    also when followed by one line feed), and whose path with the trailing
    slashes removed, or with a slash added when it has none, does not name
    one either, matches no route and is answered with status 404 and the
    body [{"detail":"Not Found"}]. *)
Theorem unrouted_path_404 (st0 : interp) (history : list request) (req : request) :
  ~ names_route (path req) ->
  ~ names_route (redirect_path (path req)) ->
  route_loop (app_routes (running st0 history)) req None = NoMatch
  /\ eval (handle_request req) (running st0 history) =
       Ok (JSONResponse [("detail", "Not Found")] 404).
Proof.
  intros Hp Hredirect.
  assert (Hloop : route_loop (app_routes (running st0 history)) req None = NoMatch).
  { rewrite running_routes. apply route_loop_unmatched.
    intros r Hr. now apply not_names_route. }
  split; [assumption|].
  unfold eval. rewrite handle_request_unmatched; [reflexivity|assumption|].
  rewrite running_routes, any_match_unmatched; [apply andb_false_r|].
  intros r Hr. now apply not_names_route.
Qed.

Lemma unrouted_path_404_witness :
  route_loop (app_routes (running (fresh_interp ∅) [])) (GET "/unknown") None = NoMatch
  /\ eval (handle_request (GET "/unknown")) (running (fresh_interp ∅) []) =
       Ok (JSONResponse [("detail", "Not Found")] 404).
Proof.
  apply unrouted_path_404.
  - intros [r [Hr Hp]]. cbn in Hr, Hp.
    repeat (destruct Hr as [<-|Hr]; [destruct Hp; discriminate|]). exact Hr.
  - intros [r [Hr Hp]]. cbn in Hr, Hp.
    repeat (destruct Hr as [<-|Hr]; [destruct Hp; discriminate|]). exact Hr.
Defined.

(** *** C6: the wrong method on a declared path *)

(** C6. A request for [/] or [/healthz] whose method is not GET is answered
    with status 405, the body being [{"detail":"Method Not Allowed"}]. *)
Theorem wrong_method_405 (st0 : interp) (history : list request) (req : request) :
  path req = "/" \/ path req = "/healthz" ->
  method req <> "GET" ->
  eval (handle_request req) (running st0 history) =
    Ok (JSONResponse [("detail", "Method Not Allowed")] 405).
Proof.
  intros Hp Hm. destruct req as [m p q h b]; cbn in Hp, Hm.
  apply String.eqb_neq in Hm.
  unfold eval.
  destruct Hp as [-> | ->].
  - rewrite handle_request_partial with (r := Route "/" ["GET"] ep_root);
      [reflexivity| |].
    + rewrite running_routes. cbn. unfold matches, method_allowed. cbn.
      now rewrite Hm.
    + unfold method_allowed. cbn. now rewrite Hm.
  - rewrite handle_request_partial with (r := Route "/healthz" ["GET"] ep_healthz);
      [reflexivity| |].
    + rewrite running_routes. cbn. unfold matches, method_allowed. cbn.
      now rewrite Hm.
    + unfold method_allowed. cbn. now rewrite Hm.
Qed.

Lemma wrong_method_405_witness :
  eval (handle_request (Request "POST" "/" "" [] "")) (running (fresh_interp ∅) []) =
    Ok (JSONResponse [("detail", "Method Not Allowed")] 405).
Proof. apply wrong_method_405; [now left | discriminate]. Defined.

(** *** C7, C8, C9: no state, no input *)

Lemma serve_repeat st req resp n :
  handle_request req st = (Ok resp, st) ->
  serve (repeat req n) st = (Ok (repeat resp n), st).
Proof.
  intros Hreq. induction n as [|n IH]; cbn [repeat serve].
  - reflexivity.
  - now rewrite (eval_bind_ok _ _ _ _ _ Hreq), (eval_bind_ok _ _ _ _ _ IH).
Qed.

(** C7. Let the same GET request for [/] or [/healthz] be sent any number
    of times in a row, at any point in the life of the server. Then all
    responses are one and the same response, with status 200 and the bytes
    of the route's body, so the bodies agree byte for byte; and the
    interpreter state after the calls is the state before them. *)
Theorem repeated_get_idempotent
    (st0 : interp) (history : list request) (req : request) (n : nat) :
  method req = "GET" ->
  path req = "/" \/ path req = "/healthz" ->
  exists bytes : string,
    (bytes = root_body \/ bytes = healthz_body)
    /\ serve (repeat req n) (running st0 history) =
         (Ok (repeat (Response 200 (Rendered bytes)) n), running st0 history).
Proof.
  intros Hm Hp. destruct req as [m p q h b]; cbn in Hm, Hp.
  destruct Hp as [-> | ->].
  - exists root_body. split; [now left|]. apply serve_repeat.
    now apply get_root; [apply running_routes|].
  - exists healthz_body. split; [now right|]. apply serve_repeat.
    now apply get_healthz; [apply running_routes|].
Qed.

Lemma repeated_get_idempotent_witness :
  exists bytes : string,
    (bytes = root_body \/ bytes = healthz_body)
    /\ serve (repeat (GET "/healthz") 3) (running (fresh_interp ∅) [GET "/"]) =
         (Ok (repeat (Response 200 (Rendered bytes)) 3),
          running (fresh_interp ∅) [GET "/"]).
Proof. apply repeated_get_idempotent; [reflexivity | now right]. Defined.

(** C8. Two GET requests for the same of the two paths receive equal
    responses, whatever their query strings, headers and bodies, and also
    whatever the interpreter states they arrive in: started in different
    environments, after different histories. *)
Theorem request_data_noninterference
    (st1 st2 : interp) (history1 history2 : list request) (req1 req2 : request) :
  method req1 = "GET" ->
  method req2 = "GET" ->
  path req1 = path req2 ->
  path req1 = "/" \/ path req1 = "/healthz" ->
  eval (handle_request req1) (running st1 history1) =
  eval (handle_request req2) (running st2 history2).
Proof.
  intros Hm1 Hm2 Hpath Hp.
  destruct req1 as [m1 p1 q1 h1 b1], req2 as [m2 p2 q2 h2 b2].
  cbn in Hm1, Hm2, Hpath, Hp. subst p2. unfold eval.
  destruct Hp as [-> | ->].
  - now rewrite !get_root by (apply running_routes || assumption).
  - now rewrite !get_healthz by (apply running_routes || assumption).
Qed.

Lemma request_data_noninterference_witness :
  eval (handle_request (Request "GET" "/" "a=1" [("x-token", "one")] "first"))
       (running (fresh_interp ∅) []) =
  eval (handle_request (Request "GET" "/" "b=2" [("cookie", "two")] "second"))
       (running (fresh_interp {["PORT" := "9000"]}) [GET "/healthz"]).
Proof.
  apply request_data_noninterference; [reflexivity | reflexivity | reflexivity | now left].
Defined.

(** A dict display allocates at an address that was free, and touches
    nothing else. *)
Lemma new_dict_fresh d st :
  exists l st',
    new_dict d st = (Ok l, st')
    /\ heap st !! l = None
    /\ heap st' = <[l := d]> (heap st)
    /\ preserved st st'.
Proof.
  exists (fresh (dom (heap st))). eexists. split; [reflexivity|].
  pose proof (fresh_loc_unused (heap st)) as Hfresh.
  unfold preserved. cbn. repeat split; try assumption.
  intros l d' Hl. rewrite lookup_insert_ne; [assumption|]. congruence.
Qed.

(** C9. In every interpreter state, [root] and [healthz] each return a new
    object, at an address that held nothing before, whose content is the
    handler's fixed payload and so does not depend on the state; every
    object that existed before, the environment, the conversion limit and
    the route table are left as they were. A second call returns another
    new object with the same content. Around a whole request the state does
    not change at all. *)
Theorem handlers_fresh_and_pure (st : interp) :
  (exists l st' l' st'',
      root st = (Ok l, st') /\ root st' = (Ok l', st'')
      /\ heap st !! l = None /\ l' <> l
      /\ heap st' !! l = Some [("message", "Hello from FastAPI on AKS!")]
      /\ heap st'' !! l' = Some [("message", "Hello from FastAPI on AKS!")]
      /\ preserved st st' /\ preserved st' st'')
  /\ (exists l st' l' st'',
      healthz st = (Ok l, st') /\ healthz st' = (Ok l', st'')
      /\ heap st !! l = None /\ l' <> l
      /\ heap st' !! l = Some [("status", "ok")]
      /\ heap st'' !! l' = Some [("status", "ok")]
      /\ preserved st st' /\ preserved st' st'')
  /\ (forall req, exec (handle_request req) st = st).
Proof.
  assert (Hnew : forall d, exists l st' l' st'',
      new_dict d st = (Ok l, st') /\ new_dict d st' = (Ok l', st'')
      /\ heap st !! l = None /\ l' <> l
      /\ heap st' !! l = Some d /\ heap st'' !! l' = Some d
      /\ preserved st st' /\ preserved st' st'').
  { intros d.
    destruct (new_dict_fresh d st) as (l & st' & H1 & Hl & Hh & Hpres).
    destruct (new_dict_fresh d st') as (l' & st'' & H2 & Hl' & Hh' & Hpres').
    exists l, st', l', st''.
    split; [exact H1|]. split; [exact H2|]. split; [exact Hl|].
    split; [|split; [|split; [|split; [exact Hpres | exact Hpres']]]].
    - intros ->. rewrite Hh, lookup_insert_eq in Hl'. discriminate.
    - rewrite Hh. apply lookup_insert_eq.
    - rewrite Hh'. apply lookup_insert_eq. }
  split; [apply Hnew|]. split; [apply Hnew|].
  intros req. apply handle_request_state.
Qed.

(** *** Start-up: reading [PORT] *)

(** The script, once the module body has run: the environment decides. *)
Lemma script_run st0 :
  eval script st0 =
    match environ st0 !! "PORT" with
    | None => Ok (UvicornRun "app:app" "0.0.0.0" 8000)
    | Some s =>
        match int_str st0 s with
        | Some z => Ok (UvicornRun "app:app" "0.0.0.0" z)
        | None => Raise ValueError
        end
    end.
Proof.
  unfold eval, script.
  rewrite (eval_bind_ok _ _ _ _ _ (module_body_run st0)).
  unfold main, environ_get, int, get_state, raise.
  unfold mbind, M_bind, bind, mret, M_ret, ret. cbn.
  destruct (environ st0 !! "PORT") as [s|]; cbn; [|reflexivity].
  change (int_str (with_routes routes st0) s) with (int_str st0 s).
  destruct (int_str st0 s); reflexivity.
Qed.

Lemma digit_facts c :
  is_digit c = true ->
  Py_ISSPACE c = false /\ Ascii.eqb c "+" = false /\ Ascii.eqb c "-" = false
  /\ Ascii.eqb c "_" = false
  /\ digit_value c = Some (Z.of_N (N_of_ascii c) - 48).
Proof.
  destruct c as [[] [] [] [] [] [] [] []]; vm_compute; intros H;
    try discriminate H; repeat split.
Qed.

Lemma scan_digits_all_digits s b acc n :
  all_digits s = true ->
  scan_digits s b acc n =
    Some (decimal_from acc s, (n + String.length s)%nat,
          match s with EmptyString => b | String _ _ => false end, EmptyString).
Proof.
  revert b acc n. induction s as [|c s IH]; intros b acc n Hs.
  - cbn. now rewrite Nat.add_0_r.
  - cbn [all_digits] in Hs. apply andb_true_iff in Hs as [Hc Hs].
    destruct (digit_facts c Hc) as (_ & _ & _ & Hus & Hd).
    cbn [scan_digits decimal_from String.length]. rewrite Hus, Hd, IH by assumption.
    rewrite Nat.add_succ_r. now destruct s.
Qed.

Lemma exceeds_limit_within limit digits :
  (limit = 0 \/ digits <= limit)%nat -> exceeds_limit limit digits = false.
Proof.
  intros H. unfold exceeds_limit. destruct H as [-> | H].
  - rewrite Nat.ltb_irrefl, andb_false_r. reflexivity.
  - replace (limit <? digits)%nat with false by (symmetry; apply Nat.ltb_ge; lia).
    apply andb_false_r.
Qed.

Lemma long_from_string_decimal limit s :
  is_decimal s = true ->
  exceeds_limit limit (String.length s) = false ->
  long_from_string limit s = Some (decimal_value s).
Proof.
  intros Hs Hlimit. destruct s as [|c s]; [discriminate|].
  cbn [is_decimal] in Hs.
  assert (Hc : is_digit c = true) by (cbn in Hs; now apply andb_true_iff in Hs).
  destruct (digit_facts c Hc) as (Hsp & Hplus & Hminus & Hus & _).
  unfold long_from_string. cbn [skip_space]. rewrite Hsp.
  cbn [split_sign]. rewrite Hplus, Hminus. cbn [leading_underscore]. rewrite Hus.
  rewrite scan_digits_all_digits by assumption.
  rewrite Nat.add_0_l, Hlimit.
  cbn [String.length Nat.eqb skip_space].
  unfold decimal_value. now rewrite Z.mul_1_l.
Qed.

Lemma is_digit_ascii c : is_digit c = true -> (N_of_ascii c <? 128)%N = true.
Proof.
  unfold is_digit. intros H. apply andb_true_iff in H as [_ H].
  apply N.leb_le in H. apply N.ltb_lt. lia.
Qed.

Lemma all_digits_is_ascii s : all_digits s = true -> is_ascii s = true.
Proof.
  unfold is_ascii. induction s as [|c s IH]; intros H; [reflexivity|].
  cbn [all_digits] in H. apply andb_true_iff in H as [Hc Hs].
  cbn [list_ascii_of_string forallb]. now rewrite is_digit_ascii, IH.
Qed.

Lemma int_of_str_decimal todecimal limit s :
  is_decimal s = true ->
  exceeds_limit limit (String.length s) = false ->
  int_of_str todecimal limit s = Some (decimal_value s).
Proof.
  intros Hs Hlimit. unfold int_of_str, transform_to_ascii.
  rewrite all_digits_is_ascii by (destruct s; [discriminate | exact Hs]).
  now apply long_from_string_decimal.
Qed.

(** A string with a character that is no digit, white space, sign or
    underscore is refused. *)
Lemma skip_space_keeps c s :
  Py_ISSPACE c = false ->
  In c (list_ascii_of_string s) -> In c (list_ascii_of_string (skip_space s)).
Proof.
  intros Hc. induction s as [|a s IH]; intros Hin; [assumption|].
  cbn [skip_space]. destruct (Py_ISSPACE a) eqn:Ha; [|assumption].
  apply IH. destruct Hin as [->|Hin]; [congruence|assumption].
Qed.

Lemma scan_digits_keeps c s b acc n v d t rest :
  Ascii.eqb c "_" = false -> digit_value c = None ->
  In c (list_ascii_of_string s) ->
  scan_digits s b acc n = Some (v, d, t, rest) ->
  In c (list_ascii_of_string rest).
Proof.
  intros Hus Hd. revert b acc n.
  induction s as [|a s IH]; intros b acc n Hin Hscan; [destruct Hin|].
  cbn [scan_digits] in Hscan.
  destruct (Ascii.eqb a "_") eqn:Ha.
  - destruct b; [discriminate|].
    destruct Hin as [->|Hin]; [congruence|]. eapply IH; eassumption.
  - destruct (digit_value a) eqn:Hda.
    + destruct Hin as [->|Hin]; [congruence|]. eapply IH; eassumption.
    + injection Hscan as <- <- <- <-. assumption.
Qed.

Lemma is_int_char_false c :
  is_int_char c = false ->
  Py_ISSPACE c = false /\ Ascii.eqb c "+" = false /\ Ascii.eqb c "-" = false
  /\ Ascii.eqb c "_" = false /\ digit_value c = None.
Proof.
  destruct c as [[] [] [] [] [] [] [] []]; vm_compute; intros H;
    try discriminate H; repeat split.
Qed.

Lemma long_from_string_foreign_char limit s c :
  In c (list_ascii_of_string s) -> is_int_char c = false ->
  long_from_string limit s = None.
Proof.
  intros Hin Hc.
  destruct (is_int_char_false c Hc) as (Hsp & Hplus & Hminus & Hus & Hd).
  apply (skip_space_keeps c s Hsp) in Hin.
  unfold long_from_string.
  destruct (split_sign (skip_space s)) as [sign s2] eqn:Hsplit.
  assert (Hin2 : In c (list_ascii_of_string s2)).
  { unfold split_sign in Hsplit. destruct (skip_space s) as [|a r].
    - destruct Hin.
    - destruct (Ascii.eqb a "+") eqn:Ea.
      + injection Hsplit as <- <-. destruct Hin as [->|Hin]; [congruence|assumption].
      + destruct (Ascii.eqb a "-") eqn:Eb; injection Hsplit as <- <-.
        * destruct Hin as [->|Hin]; [congruence|assumption].
        * assumption. }
  destruct (leading_underscore s2); [reflexivity|].
  destruct (scan_digits s2 false 0 0) as [[[[v d] t] rest]|] eqn:Hscan; [|reflexivity].
  apply (scan_digits_keeps c _ _ _ _ _ _ _ _ Hus Hd Hin2) in Hscan.
  destruct t; [reflexivity|].
  destruct (exceeds_limit limit d); [reflexivity|].
  destruct (d =? 0)%nat; [reflexivity|].
  apply (skip_space_keeps c rest Hsp) in Hscan.
  destruct (skip_space rest); [destruct Hscan | reflexivity].
Qed.

(** The rewriting to ASCII keeps every ASCII character of the text. *)
Lemma transform_from_keeps todecimal c s :
  (N_of_ascii c < 128)%N ->
  forall pending cp minimum a,
    transform_from todecimal pending cp minimum s = Some a ->
    In c (list_ascii_of_string s) -> In c (list_ascii_of_string a).
Proof.
  intros Hc. induction s as [|b r IH]; intros pending cp minimum a Ht Hin;
    [destruct Hin|].
  cbn [transform_from] in Ht.
  destruct pending as [|pending].
  - destruct (N_of_ascii b <? 127)%N eqn:Hb.
    + destruct (transform_from todecimal 0 0 0 r) as [a'|] eqn:Hr; [|discriminate].
      injection Ht as <-. destruct Hin as [->|Hin]; [now left|].
      right. eapply IH; eassumption.
    + apply N.ltb_ge in Hb.
      assert (Hne : c <> b).
      { intros ->.
        destruct ((194 <=? N_of_ascii b) && (N_of_ascii b <? 224))%N eqn:H2;
          [apply andb_true_iff in H2 as [H2 _]; apply N.leb_le in H2; lia|].
        destruct ((224 <=? N_of_ascii b) && (N_of_ascii b <? 240))%N eqn:H3;
          [apply andb_true_iff in H3 as [H3 _]; apply N.leb_le in H3; lia|].
        destruct ((240 <=? N_of_ascii b) && (N_of_ascii b <? 245))%N eqn:H4;
          [apply andb_true_iff in H4 as [H4 _]; apply N.leb_le in H4; lia|].
        discriminate. }
      destruct Hin as [Heq|Hin]; [congruence|].
      destruct ((194 <=? N_of_ascii b) && (N_of_ascii b <? 224))%N;
        [eapply IH; eassumption|].
      destruct ((224 <=? N_of_ascii b) && (N_of_ascii b <? 240))%N;
        [eapply IH; eassumption|].
      destruct ((240 <=? N_of_ascii b) && (N_of_ascii b <? 245))%N;
        [eapply IH; eassumption|discriminate].
  - destruct ((128 <=? N_of_ascii b) && (N_of_ascii b <? 192))%N eqn:Hb;
      [|discriminate].
    apply andb_true_iff in Hb as [Hb _]. apply N.leb_le in Hb.
    destruct Hin as [->|Hin]; [lia|].
    destruct pending as [|pending]; [|eapply IH; eassumption].
    destruct (well_formed minimum (cp * 64 + (N_of_ascii b - 128))); [|discriminate].
    destruct (to_ascii todecimal (cp * 64 + (N_of_ascii b - 128))) as [a0|];
      [|discriminate].
    destruct (transform_from todecimal 0 0 0 r) as [a'|] eqn:Hr; [|discriminate].
    injection Ht as <-. right. eapply IH; eassumption.
Qed.

Lemma int_of_str_foreign_char todecimal limit s c :
  In c (list_ascii_of_string s) ->
  (N_of_ascii c < 128)%N ->
  is_int_char c = false ->
  int_of_str todecimal limit s = None.
Proof.
  intros Hin Hascii Hc. unfold int_of_str, transform_to_ascii.
  destruct (is_ascii s).
  - now apply long_from_string_foreign_char with (c := c).
  - destruct (transform_from todecimal 0 0 0 s) as [a|] eqn:Ht; [|reflexivity].
    apply long_from_string_foreign_char with (c := c); [|assumption].
    eapply transform_from_keeps; eassumption.
Qed.

(** *** C3: the port the server is started on *)

(** A decimal string that is not converted: with the default limit of 4300
    digits, a [PORT] of 4301 digits makes the script raise. *)
Lemma long_decimal_port_refused :
  environ (fresh_interp {["PORT" := ones 4301]}) !! "PORT" = Some (ones 4301)
  /\ is_decimal (ones 4301) = true
  /\ eval script (fresh_interp {["PORT" := ones 4301]}) = Raise ValueError.
Proof. repeat split; vm_compute; reflexivity. Qed.

(** C3, amended. The script reads [PORT] from the environment and converts
    it with [int]. When [PORT] is unset, [uvicorn.run] is called for host
    [0.0.0.0] and port 8000. When [PORT] is a string of decimal digits
    that does not exceed the interpreter's limit on the number of digits of
    a converted string, [uvicorn.run] is called for the port the digits
    denote. *)
Theorem port_from_environment (st0 : interp) :
  (environ st0 !! "PORT" = None ->
   eval script st0 = Ok (UvicornRun "app:app" "0.0.0.0" 8000))
  /\ (forall s : string,
        environ st0 !! "PORT" = Some s ->
        is_decimal s = true ->
        exceeds_limit (int_max_str_digits st0) (String.length s) = false ->
        eval script st0 = Ok (UvicornRun "app:app" "0.0.0.0" (decimal_value s))).
Proof.
  split.
  - intros Henv. now rewrite script_run, Henv.
  - intros s Henv Hs Hlimit.
    rewrite script_run, Henv. unfold int_str.
    now rewrite int_of_str_decimal.
Qed.

Lemma port_from_environment_witness :
  eval script (fresh_interp ∅) = Ok (UvicornRun "app:app" "0.0.0.0" 8000)
  /\ eval script (fresh_interp {["PORT" := "9000"]}) =
       Ok (UvicornRun "app:app" "0.0.0.0" 9000).
Proof.
  split.
  - apply (proj1 (port_from_environment (fresh_interp ∅))). reflexivity.
  - apply (proj2 (port_from_environment (fresh_interp {["PORT" := "9000"]})) "9000").
    + vm_compute. reflexivity.
    + reflexivity.
    + reflexivity.
Defined.

(** *** C4: a [PORT] that is not an integer *)

(** C4. The script raises, and so ends before [uvicorn.run] is called, if
    and only if [PORT] is set to a string that [int] refuses; the exception
    is the [ValueError] of that conversion, and no other step of the script
    can raise. Every string with an ASCII character other than a digit,
    white space, a sign or an underscore, such as [abc], is refused. *)
Theorem invalid_port_is_fatal (st0 : interp) :
  (eval script st0 = Raise ValueError <->
   exists s : string,
     environ st0 !! "PORT" = Some s
     /\ int_str st0 s = None)
  /\ (forall (s : string) (c : ascii),
        environ st0 !! "PORT" = Some s ->
        In c (list_ascii_of_string s) ->
        (N_of_ascii c < 128)%N ->
        is_int_char c = false ->
        eval script st0 = Raise ValueError).
Proof.
  split; [split|].
  - rewrite script_run. intros H.
    destruct (environ st0 !! "PORT") as [s|]; [|discriminate].
    exists s. split; [reflexivity|].
    now destruct (int_str st0 s).
  - intros (s & Henv & Hint). now rewrite script_run, Henv, Hint.
  - intros s c Henv Hin Hascii Hc.
    rewrite script_run, Henv. unfold int_str.
    now rewrite (int_of_str_foreign_char _ _ s c Hin Hascii Hc).
Qed.

Lemma invalid_port_is_fatal_witness :
  eval script (fresh_interp {["PORT" := "abc"]}) = Raise ValueError.
Proof.
  apply (proj2 (invalid_port_is_fatal (fresh_interp {["PORT" := "abc"]}))
           "abc" "a"%char).
  - vm_compute. reflexivity.
  - left. reflexivity.
  - vm_compute. reflexivity.
  - reflexivity.
Defined.

(** *** C10: no range check on the port *)

(** C10. Whatever integer [int] reads from [PORT] is passed to
    [uvicorn.run] as it is: the script checks no range and does not raise.
    In particular the strings [  -1 ], [+8000], [8_000], [-1] and [99999]
    are accepted, with the values -1, 8000, 8000, -1 and 99999. *)
Theorem port_parse_unchecked (st0 : interp) :
  (forall (s : string) (z : Z),
     environ st0 !! "PORT" = Some s ->
     int_str st0 s = Some z ->
     eval script st0 = Ok (UvicornRun "app:app" "0.0.0.0" z))
  /\ int_str st0 "  -1 " = Some (-1)
  /\ int_str st0 "+8000" = Some 8000
  /\ int_str st0 "8_000" = Some 8000
  /\ int_str st0 "-1" = Some (-1)
  /\ int_str st0 "99999" = Some 99999.
Proof.
  split.
  - intros s z Henv Hint. now rewrite script_run, Henv, Hint.
  - repeat split; reflexivity.
Qed.

Lemma port_parse_unchecked_witness :
  eval script (fresh_interp {["PORT" := "  -1 "]}) =
    Ok (UvicornRun "app:app" "0.0.0.0" (-1))
  /\ eval script (fresh_interp {["PORT" := "99999"]}) =
    Ok (UvicornRun "app:app" "0.0.0.0" 99999).
Proof.
  split.
  - apply (proj1 (port_parse_unchecked (fresh_interp {["PORT" := "  -1 "]})) "  -1 ");
      vm_compute; reflexivity.
  - apply (proj1 (port_parse_unchecked (fresh_interp {["PORT" := "99999"]})) "99999");
      vm_compute; reflexivity.
Defined.

(* ===================================================================== *)
(** ** Further properties *)
(* ===================================================================== *)

(** *** Requests do not influence each other *)


(** *** The answer to every request *)

Lemma method_allowed_In r req :
  route_methods r <> [] ->
  method_allowed r req = true <-> In (method req) (route_methods r).
Proof.
  intros Hne. unfold method_allowed.
  destruct (route_methods r) as [|m ms] eqn:E; [congruence|].
  rewrite existsb_exists. split.
  - intros (x & Hx & Heq). apply String.eqb_eq in Heq. now subst.
  - intros H. exists (method req). split; [assumption | apply String.eqb_refl].
Qed.

Lemma routes_have_methods r : In r routes -> route_methods r <> [].
Proof.
  intros Hr. cbn in Hr.
  repeat (destruct Hr as [<-|Hr]; [discriminate|]). destruct Hr.
Qed.

(** No path is matched by two routes of the table. *)
Lemma route_at_unique p r r' : route_at p r -> route_at p r' -> r = r'.
Proof.
  intros [Hr Hp] [Hr' Hp']. cbn in Hr, Hr'.
  repeat (destruct Hr as [<-|Hr]; [|]); try (destruct Hr);
    repeat (destruct Hr' as [<-|Hr']; [|]); try (destruct Hr');
    try reflexivity; exfalso;
    cbn in Hp, Hp'; destruct Hp as [-> | ->]; destruct Hp' as [Hp' | Hp'];
    discriminate Hp'.
Qed.

Lemma route_at_match p r : route_at p r -> path_regex_match (route_path r) p = true.
Proof. intros [_ Hp]. now apply path_regex_match_spec. Qed.

Lemma route_at_other p r r' :
  route_at p r -> In r' routes -> r' <> r ->
  path_regex_match (route_path r') p = false.
Proof.
  intros Hr Hr' Hne.
  destruct (path_regex_match (route_path r') p) eqn:E; [|reflexivity].
  exfalso. apply Hne. apply (route_at_unique p); [|assumption].
  split; [assumption | now apply path_regex_match_spec].
Qed.

Lemma route_eq_dec (r r' : route) : {r = r'} + {r <> r'}.
Proof. repeat decide equality. Qed.

Lemma route_loop_partial rs req q :
  (forall x, In x rs -> matches x req <> FULL) ->
  route_loop rs req (Some q) = Partial q.
Proof.
  induction rs as [|x rs IH]; intros H; cbn [route_loop]; [reflexivity|].
  destruct (matches x req) eqn:E.
  - apply IH. intros y Hy. apply H. now right.
  - apply IH. intros y Hy. apply H. now right.
  - exfalso. apply (H x); [now left | assumption].
Qed.

(** When one route only matches the path, the loop ends on that route. *)
Lemma route_loop_single rs req r :
  In r rs ->
  path_regex_match (route_path r) (path req) = true ->
  (forall x, In x rs -> x <> r -> path_regex_match (route_path x) (path req) = false) ->
  route_loop rs req None = if method_allowed r req then Full r else Partial r.
Proof.
  intros Hin Hr Hothers.
  induction rs as [|x rs IH]; [destruct Hin|].
  cbn [route_loop].
  destruct (route_eq_dec x r) as [->|Hne].
  - unfold matches at 1. rewrite Hr.
    destruct (method_allowed r req) eqn:Hm; [reflexivity|].
    apply route_loop_partial. intros y Hy.
    unfold matches. destruct (route_eq_dec y r) as [->|Hy'].
    + rewrite Hr, Hm. discriminate.
    + rewrite (Hothers y) by (now right || assumption). discriminate.
  - rewrite matches_NONE by (apply Hothers; [now left | assumption]).
    apply IH.
    + destruct Hin as [->|Hin]; [congruence | assumption].
    + intros y Hy. apply Hothers. now right.
Qed.

Lemma handle_request_at st req r :
  app_routes st = routes ->
  route_at (path req) r ->
  handle_request req st =
    if method_allowed r req then call (route_endpoint r) req st
    else (Ok (FastAPI.http_exception_handler 405), st).
Proof.
  intros Hroutes Hat.
  assert (Hloop : route_loop (app_routes st) req None =
                  if method_allowed r req then Full r else Partial r).
  { rewrite Hroutes. apply route_loop_single.
    - apply Hat.
    - now apply route_at_match.
    - intros x Hx Hne. now apply (route_at_other (path req) r). }
  destruct (method_allowed r req) eqn:Hm.
  - destruct (call_ok (route_endpoint r) req st) as [resp Hcall].
    rewrite Hcall. now apply handle_request_full with (r := r).
  - now apply handle_request_partial with (r := r).
Qed.

Lemma names_route_any_match req p :
  names_route p -> any_match routes (with_path req p) = true.
Proof.
  intros (r & Hr & Hp). unfold any_match. apply existsb_exists.
  exists r. split; [assumption|].
  unfold matches. cbn [path with_path].
  replace (path_regex_match (route_path r) p) with true
    by (symmetry; now apply path_regex_match_spec).
  now destruct (method_allowed r (with_path req p)).
Qed.

Lemma names_route_dec p : {names_route p} + {~ names_route p}.
Proof.
  destruct (existsb (fun r => path_regex_match (route_path r) p) routes) eqn:E.
  - left. apply existsb_exists in E as (r & Hr & Hp).
    exists r. split; [assumption | now apply path_regex_match_spec].
  - right. intros (r & Hr & Hp).
    assert (existsb (fun r => path_regex_match (route_path r) p) routes = true).
    { apply existsb_exists. exists r. split; [assumption|].
      now apply path_regex_match_spec. }
    congruence.
Qed.

Lemma handle_request_redirect st req :
  app_routes st = routes ->
  ~ names_route (path req) ->
  names_route (redirect_path (path req)) ->
  handle_request req st = (Ok RedirectResponse, st).
Proof.
  intros Hroutes Hp Hredirect.
  assert (Hloop : route_loop (app_routes st) req None = NoMatch).
  { rewrite Hroutes. apply route_loop_unmatched.
    intros r Hr. now apply not_names_route. }
  assert (Hroot : String.eqb (path req) "/" = false).
  { apply String.eqb_neq. intros Heq. apply Hp.
    exists (Route "/" ["GET"] ep_root). split; [|now left].
    cbn. tauto. }
  unfold handle_request, FastAPI.handle, Router_app.
  unfold mbind, M_bind, bind, mret, M_ret, ret, get_state. cbn.
  now rewrite Hloop, Hroot, Hroutes, names_route_any_match.
Qed.

Lemma handle_request_not_found st req :
  app_routes st = routes ->
  ~ names_route (path req) ->
  ~ names_route (redirect_path (path req)) ->
  handle_request req st = (Ok (FastAPI.http_exception_handler 404), st).
Proof.
  intros Hroutes Hp Hredirect.
  apply handle_request_unmatched.
  - rewrite Hroutes. apply route_loop_unmatched.
    intros r Hr. now apply not_names_route.
  - rewrite Hroutes, any_match_unmatched; [apply andb_false_r|].
    intros r Hr. now apply not_names_route.
Qed.

Lemma call_status ep req st resp st' :
  call ep req st = (Ok resp, st') -> status_code resp = 200.
Proof.
  destruct ep; cbn [call]; unfold root, healthz;
    rewrite ?run_endpoint_function_new_dict; intros H; now injection H as <- _.
Qed.

(** Every request falls in one of four cases. *)
Lemma status_cases st req :
  app_routes st = routes ->
  (exists r, route_at (path req) r /\ In (method req) (route_methods r)
             /\ status st req = Some 200)
  \/ (exists r, route_at (path req) r /\ ~ In (method req) (route_methods r)
                /\ status st req = Some 405)
  \/ (~ names_route (path req) /\ names_route (redirect_path (path req))
      /\ status st req = Some 307)
  \/ (~ names_route (path req) /\ ~ names_route (redirect_path (path req))
      /\ status st req = Some 404).
Proof.
  intros Hroutes. unfold status, eval.
  destruct (names_route_dec (path req)) as [(r & Hr & Hp) | Hp].
  - assert (Hat : route_at (path req) r) by (split; assumption).
    rewrite (handle_request_at st req r Hroutes Hat).
    pose proof (method_allowed_In r req (routes_have_methods r Hr)) as Hm.
    destruct (method_allowed r req) eqn:E.
    + left. exists r. split; [assumption|]. split; [now apply Hm|].
      destruct (call_ok (route_endpoint r) req st) as [resp Hcall].
      rewrite Hcall. cbn. now rewrite (call_status _ _ _ _ _ Hcall).
    + right; left. exists r. split; [assumption|]. split; [|reflexivity].
      intros Hin. apply Hm in Hin. discriminate.
  - destruct (names_route_dec (redirect_path (path req))) as [Hredirect | Hredirect].
    + right; right; left. rewrite handle_request_redirect by assumption. tauto.
    + right; right; right. rewrite handle_request_not_found by assumption. tauto.
Qed.

(** X2. In every state the server can reach, the status of the answer is
    decided by the path and the method alone, in four exclusive cases:
    200 exactly when a registered route matches the path and lists the
    method; 405 exactly when a registered route matches the path and does
    not list the method; 307 exactly when no route matches the path but one
    matches the path with its trailing slashes removed (or a slash added);
    404 exactly when neither the path nor that variant is matched. No
    request gets another status, and none makes the application raise. *)
Theorem status_classification (st0 : interp) (history : list request) (req : request) :
  (status (running st0 history) req = Some 200 <->
     exists r, route_at (path req) r /\ In (method req) (route_methods r))
  /\ (status (running st0 history) req = Some 405 <->
     exists r, route_at (path req) r /\ ~ In (method req) (route_methods r))
  /\ (status (running st0 history) req = Some 307 <->
     ~ names_route (path req) /\ names_route (redirect_path (path req)))
  /\ (status (running st0 history) req = Some 404 <->
     ~ names_route (path req) /\ ~ names_route (redirect_path (path req))).
Proof.
  pose proof (status_cases (running st0 history) req (running_routes st0 history))
    as Hcases.
  assert (Hnamed : forall r, route_at (path req) r -> names_route (path req)).
  { intros r [Hr Hp]. now exists r. }
  split; [|split; [|split]]; split.
  - intros Hs.
    destruct Hcases as [(r & Hat & Hin & _) | [(r & _ & _ & H) | [(_ & _ & H) | (_ & _ & H)]]];
      [eauto | congruence ..].
  - intros (r & Hat & Hin).
    destruct Hcases as [(_ & _ & _ & H) | [(r' & Hat' & Hnot & _) | [(Hn & _) | (Hn & _)]]].
    + assumption.
    + exfalso. apply Hnot. now rewrite (route_at_unique _ _ _ Hat' Hat).
    + exfalso. eauto.
    + exfalso. eauto.
  - intros Hs.
    destruct Hcases as [(r & _ & _ & H) | [(r & Hat & Hnot & _) | [(_ & _ & H) | (_ & _ & H)]]];
      [congruence | eauto | congruence ..].
  - intros (r & Hat & Hnot).
    destruct Hcases as [(r' & Hat' & Hin & _) | [(_ & _ & _ & H) | [(Hn & _) | (Hn & _)]]].
    + exfalso. apply Hnot. now rewrite (route_at_unique _ _ _ Hat Hat').
    + assumption.
    + exfalso. eauto.
    + exfalso. eauto.
  - intros Hs.
    destruct Hcases as [(r & _ & _ & H) | [(r & _ & _ & H) | [(Hn & Hyes & _) | (_ & _ & H)]]];
      [congruence | congruence | tauto | congruence].
  - intros [Hn Hredirect].
    destruct Hcases as [(r & Hat & _) | [(r & Hat & _) | [(_ & _ & H) | (_ & Hnot & _)]]].
    + exfalso. eauto.
    + exfalso. eauto.
    + assumption.
    + contradiction.
  - intros Hs.
    destruct Hcases as [(r & _ & _ & H) | [(r & _ & _ & H) | [(_ & _ & H) | (Hn & Hnot & _)]]];
      [congruence | congruence | congruence | tauto].
  - intros [Hn Hredirect].
    destruct Hcases as [(r & Hat & _) | [(r & Hat & _) | [(_ & Hyes & _) | (_ & _ & H)]]].
    + exfalso. eauto.
    + exfalso. eauto.
    + contradiction.
    + assumption.
Qed.

(** *** A declared path with slashes added *)

Lemma list_ascii_of_append a b :
  list_ascii_of_string (a +:+ b) =
    (list_ascii_of_string a ++ list_ascii_of_string b)%list.
Proof. induction a as [|c a IH]; simpl; [reflexivity | f_equal; exact IH]. Qed.

Lemma list_ascii_of_slashes k :
  list_ascii_of_string (slashes k) = repeat "/"%char k.
Proof. induction k as [|k IH]; cbn; [reflexivity | f_equal; exact IH]. Qed.

Lemma endswith_slash_slashes q k : endswith_slash (q +:+ slashes (S k)) = true.
Proof.
  unfold endswith_slash.
  rewrite list_ascii_of_append, list_ascii_of_slashes, rev_app_distr.
  replace (rev (repeat "/"%char (S k))) with (repeat "/"%char (S k)).
  - reflexivity.
  - generalize (S k). intros n. induction n as [|n IH]; [reflexivity|].
    cbn [repeat rev]. rewrite <- IH.
    clear IH. induction n as [|n IH]; [reflexivity|].
    cbn [repeat app]. now rewrite <- IH.
Qed.

Lemma rstrip_slash_slashes q k : rstrip_slash (q +:+ slashes k) = rstrip_slash q.
Proof.
  induction q as [|c q IH].
  - change (EmptyString +:+ slashes k) with (slashes k).
    induction k as [|k IHk]; [reflexivity|]. cbn. now rewrite IHk.
  - change (String c q +:+ slashes k) with (String c (q +:+ slashes k)).
    cbn [rstrip_slash]. now rewrite IH.
Qed.

(** X3. A request, of any method, for the path of a registered route other
    than [/] with one or more slashes added at its end, such as
    [/healthz/] or [/docs//], is not answered by the route: it gets a 307
    redirect with an empty body. *)
Theorem trailing_slash_redirect
    (st0 : interp) (history : list request) (req : request) (r : route) (k : nat) :
  In r routes ->
  route_path r <> "/" ->
  path req = route_path r +:+ slashes (S k) ->
  eval (handle_request req) (running st0 history) = Ok (Response 307 (Rendered "")).
Proof.
  intros Hr Hroot Hpath.
  assert (Hends : endswith_slash (path req) = true)
    by (rewrite Hpath; apply endswith_slash_slashes).
  assert (Hstrip : rstrip_slash (route_path r) = route_path r).
  { cbn in Hr. repeat (destruct Hr as [<-|Hr]; [reflexivity || (now cbn in Hroot)|]).
    destruct Hr. }
  unfold eval. rewrite handle_request_redirect; [reflexivity | apply running_routes | |].
  - intros (r' & Hr' & Hp'). cbn in Hr'.
    repeat (destruct Hr' as [<-|Hr'];
            [destruct Hp' as [Hp' | Hp']; rewrite Hp' in Hends; try discriminate Hends|]);
      [|destruct Hr'].
    rewrite Hpath in Hp'. cbn in Hr.
    repeat (destruct Hr as [<-|Hr]; [discriminate Hp' || (now cbn in Hroot)|]).
    destruct Hr.
  - unfold redirect_path. rewrite Hends, Hpath, rstrip_slash_slashes, Hstrip.
    exists r. split; [assumption | now left].
Qed.

Lemma trailing_slash_redirect_witness :
  eval (handle_request (Request "POST" "/healthz//" "" [] ""))
       (running (fresh_interp ∅) []) = Ok (Response 307 (Rendered "")).
Proof.
  apply (trailing_slash_redirect _ _ _ (Route "/healthz" ["GET"] ep_healthz) 1).
  - do 5 right. now left.
  - discriminate.
  - reflexivity.
Defined.

(** *** Where the two payloads are served *)

Lemma method_allowed_get r req :
  route_methods r = ["GET"] -> method_allowed r req = true -> method req = "GET".
Proof.
  unfold method_allowed. intros ->. cbn. rewrite orb_false_r.
  apply String.eqb_eq.
Qed.

(** X4. The greeting is the answer to GET requests for the path [/] (or
    [/] followed by a line feed) and to no other request; the health body is
    the answer to GET requests for [/healthz] (or [/healthz] followed by a
    line feed) and to no other request. *)
Theorem payloads_only_on_their_routes
    (st0 : interp) (history : list request) (req : request) :
  (eval (handle_request req) (running st0 history) =
     Ok (Response 200 (Rendered root_body))
   <-> method req = "GET"
       /\ (path req = "/" \/ path req = "/" +:+ String newline EmptyString))
  /\ (eval (handle_request req) (running st0 history) =
     Ok (Response 200 (Rendered healthz_body))
   <-> method req = "GET"
       /\ (path req = "/healthz"
           \/ path req = "/healthz" +:+ String newline EmptyString)).
Proof.
  pose proof (running_routes st0 history) as Hroutes.
  set (st := running st0 history) in *.
  assert (Hserved : forall r resp,
    route_at (path req) r ->
    eval (handle_request req) st = Ok resp -> status_code resp = 200 ->
    method_allowed r req = true
    /\ call (route_endpoint r) req st = (Ok resp, st)).
  { intros r resp Hat Hresp Hcode. unfold eval in Hresp.
    rewrite (handle_request_at st req r Hroutes Hat) in Hresp.
    destruct (method_allowed r req); [split; [reflexivity|]|].
    - destruct (call_ok (route_endpoint r) req st) as [resp' Hcall].
      rewrite Hcall in *. cbn in Hresp. congruence.
    - cbn in Hresp. injection Hresp as <-. discriminate Hcode. }
  assert (Hunnamed : forall resp,
    ~ names_route (path req) ->
    eval (handle_request req) st = Ok resp -> status_code resp <> 200).
  { intros resp Hn Hresp. unfold eval in Hresp.
    destruct (names_route_dec (redirect_path (path req))).
    - rewrite handle_request_redirect in Hresp by assumption.
      cbn in Hresp. injection Hresp as <-. discriminate.
    - rewrite handle_request_not_found in Hresp by assumption.
      cbn in Hresp. injection Hresp as <-. discriminate. }
  assert (Hget : forall r, route_at (path req) r -> method req = "GET" ->
                 route_methods r = ["GET"] ->
                 eval (handle_request req) st = fst (call (route_endpoint r) req st)).
  { intros r Hat Hm Hms. unfold eval.
    rewrite (handle_request_at st req r Hroutes Hat).
    unfold method_allowed. rewrite Hms, Hm. reflexivity. }
  split; split.
  - intros Hresp.
    destruct (names_route_dec (path req)) as [(r & Hr & Hp) | Hn];
      [|exfalso; now apply (Hunnamed _ Hn Hresp)].
    destruct (Hserved r _ (conj Hr Hp) Hresp eq_refl) as [Hm Hcall].
    cbn in Hr.
    repeat (destruct Hr as [<-|Hr];
            [try (cbn in Hcall; unfold healthz in Hcall;
                  rewrite ?run_endpoint_function_new_dict in Hcall;
                  discriminate Hcall)|]);
      [|destruct Hr].
    split; [|exact Hp].
    eapply method_allowed_get; [|exact Hm]. reflexivity.
  - intros [Hm Hp].
    rewrite (Hget (Route "/" ["GET"] ep_root)); [| |assumption|reflexivity].
    + cbn [route_endpoint call]. unfold root.
      now rewrite run_endpoint_function_new_dict.
    + split; [do 4 right; now left | exact Hp].
  - intros Hresp.
    destruct (names_route_dec (path req)) as [(r & Hr & Hp) | Hn];
      [|exfalso; now apply (Hunnamed _ Hn Hresp)].
    destruct (Hserved r _ (conj Hr Hp) Hresp eq_refl) as [Hm Hcall].
    cbn in Hr.
    repeat (destruct Hr as [<-|Hr];
            [try (cbn in Hcall; unfold root in Hcall;
                  rewrite ?run_endpoint_function_new_dict in Hcall;
                  discriminate Hcall)|]);
      [|destruct Hr].
    split; [|exact Hp].
    eapply method_allowed_get; [|exact Hm]. reflexivity.
  - intros [Hm Hp].
    rewrite (Hget (Route "/healthz" ["GET"] ep_healthz)); [| |assumption|reflexivity].
    + cbn [route_endpoint call]. unfold healthz.
      now rewrite run_endpoint_function_new_dict.
    + split; [do 5 right; now left | exact Hp].
Qed.

(** *** What start-up reads and leaves *)




(** *** Which values of [PORT] are accepted *)

Lemma space_facts c :
  Py_ISSPACE c = true ->
  (N_of_ascii c <? 128)%N = true
  /\ Ascii.eqb c "+" = false /\ Ascii.eqb c "-" = false
  /\ Ascii.eqb c "_" = false /\ digit_value c = None.
Proof.
  destruct c as [[] [] [] [] [] [] [] []]; vm_compute; intros H;
    try discriminate H; repeat split.
Qed.

Lemma is_ascii_append a b : is_ascii (a +:+ b) = is_ascii a && is_ascii b.
Proof.
  unfold is_ascii. rewrite list_ascii_of_append. apply forallb_app.
Qed.

Lemma all_space_is_ascii s : all_space s = true -> is_ascii s = true.
Proof.
  unfold is_ascii. induction s as [|c s IH]; intros H; [reflexivity|].
  cbn [all_space] in H. apply andb_true_iff in H as [Hc Hs].
  destruct (space_facts c Hc) as (Hascii & _).
  cbn [list_ascii_of_string forallb]. now rewrite Hascii, IH.
Qed.

Lemma skip_space_all_space ws r :
  all_space ws = true -> skip_space (ws +:+ r) = skip_space r.
Proof.
  induction ws as [|c ws IH]; intros H; [reflexivity|].
  cbn [all_space] in H. apply andb_true_iff in H as [Hc Hs].
  change (String c ws +:+ r) with (String c (ws +:+ r)).
  cbn [skip_space]. rewrite Hc. now apply IH.
Qed.

Lemma skip_space_blank ws : all_space ws = true -> skip_space ws = EmptyString.
Proof.
  induction ws as [|c ws IH]; intros H; [reflexivity|].
  cbn [all_space] in H. apply andb_true_iff in H as [Hc Hs].
  cbn [skip_space]. rewrite Hc. now apply IH.
Qed.

Lemma int_of_str_blank todecimal limit s :
  all_space s = true -> int_of_str todecimal limit s = None.
Proof.
  intros Hs. unfold int_of_str, transform_to_ascii.
  rewrite all_space_is_ascii by assumption.
  unfold long_from_string. now rewrite skip_space_blank.
Qed.

(** X6. A [PORT] that is set but empty, or made of white space only, does
    not fall back to 8000: start-up raises [ValueError]. *)
Theorem blank_port_is_fatal (st0 : interp) (s : string) :
  environ st0 !! "PORT" = Some s ->
  all_space s = true ->
  eval script st0 = Raise ValueError.
Proof.
  intros Henv Hs. rewrite script_run, Henv. unfold int_str.
  now rewrite int_of_str_blank.
Qed.

Lemma blank_port_is_fatal_witness :
  eval script (fresh_interp {["PORT" := ""]}) = Raise ValueError.
Proof. apply (blank_port_is_fatal _ ""); vm_compute; reflexivity. Defined.

Lemma append_cons x a b : String x a +:+ b = String x (a +:+ b).
Proof. reflexivity. Qed.

Lemma append_assoc a b c : (a +:+ b) +:+ c = a +:+ (b +:+ c).
Proof.
  induction a as [|x a IH]; [reflexivity|]. now rewrite !append_cons, IH.
Qed.

Lemma length_append a b :
  String.length (a +:+ b) = (String.length a + String.length b)%nat.
Proof.
  induction a as [|x a IH]; [reflexivity|].
  rewrite append_cons. cbn [String.length]. now rewrite IH.
Qed.

Lemma decimal_from_append a b acc :
  decimal_from acc (a +:+ b) = decimal_from (decimal_from acc a) b.
Proof.
  revert acc. induction a as [|x a IH]; intros acc; [reflexivity|].
  rewrite append_cons. cbn [decimal_from]. apply IH.
Qed.

(** The scanning loop runs through a group of digits. *)
Lemma scan_digits_group g rest b acc n :
  all_digits g = true ->
  scan_digits (g +:+ rest) b acc n =
    scan_digits rest (match g with EmptyString => b | String _ _ => false end)
                (decimal_from acc g) (n + String.length g).
Proof.
  revert b acc n. induction g as [|c g IH]; intros b acc n Hg.
  - simpl. now rewrite Nat.add_0_r.
  - cbn [all_digits] in Hg. apply andb_true_iff in Hg as [Hc Hg].
    destruct (digit_facts c Hc) as (_ & _ & _ & Hus & Hd).
    change (String c g +:+ rest) with (String c (g +:+ rest)).
    cbn [scan_digits decimal_from String.length]. rewrite Hus, Hd, IH by assumption.
    rewrite Nat.add_succ_r. now destruct g.
Qed.

(** The scanning loop stops at white space. *)
Lemma scan_digits_space ws acc n :
  all_space ws = true -> scan_digits ws false acc n = Some (acc, n, false, ws).
Proof.
  destruct ws as [|c ws]; intros H; [reflexivity|].
  cbn [all_space] in H. apply andb_true_iff in H as [Hc _].
  destruct (space_facts c Hc) as (_ & _ & _ & Hus & Hd).
  cbn [scan_digits]. now rewrite Hus, Hd.
Qed.

Lemma is_decimal_all_digits g : is_decimal g = true -> all_digits g = true.
Proof. destruct g; [discriminate | trivial]. Qed.

Lemma scan_digits_groups gs ws b acc n :
  groups_ok gs = true ->
  all_space ws = true ->
  scan_digits (String.concat "_" gs +:+ ws) b acc n =
    Some (decimal_from acc (digits_of gs),
          (n + String.length (digits_of gs))%nat, false, ws).
Proof.
  intros Hgs Hws. revert b acc n.
  induction gs as [|g tl IH]; [discriminate|]. intros b acc n.
  cbn [groups_ok forallb] in Hgs. apply andb_true_iff in Hgs as [Hg Htl].
  destruct tl as [|g' tl].
  - cbn [String.concat digits_of].
    rewrite scan_digits_group by now apply is_decimal_all_digits.
    destruct g as [|c g]; [discriminate|].
    now apply scan_digits_space.
  - change (String.concat "_" (g :: g' :: tl))
      with (g +:+ String "_" (String.concat "_" (g' :: tl))).
    change (digits_of (g :: g' :: tl)) with (g +:+ digits_of (g' :: tl)).
    rewrite append_assoc, scan_digits_group by now apply is_decimal_all_digits.
    change (String "_" (String.concat "_" (g' :: tl)) +:+ ws)
      with (String "_" (String.concat "_" (g' :: tl) +:+ ws)).
    destruct g as [|c g]; [discriminate|].
    cbn [scan_digits Ascii.eqb Bool.eqb]. cbn match.
    rewrite IH by exact Htl.
    now rewrite decimal_from_append, length_append, Nat.add_assoc.
Qed.

(** The digits of a literal start with a digit. *)
Lemma groups_head gs rest :
  groups_ok gs = true ->
  exists c r, String.concat "_" gs +:+ rest = String c r /\ is_digit c = true.
Proof.
  destruct gs as [|g tl]; [discriminate|]. intros Hgs.
  cbn [groups_ok forallb] in Hgs. apply andb_true_iff in Hgs as [Hg _].
  destruct g as [|c g]; [discriminate|].
  cbn [is_decimal all_digits] in Hg. apply andb_true_iff in Hg as [Hc _].
  destruct tl; simpl; eauto.
Qed.

Lemma digits_of_length gs : groups_ok gs = true -> String.length (digits_of gs) <> 0%nat.
Proof.
  intros Hgs. destruct (groups_head gs EmptyString Hgs) as (c & r & _ & _).
  destruct gs as [|g tl]; [discriminate|].
  cbn [groups_ok forallb] in Hgs. apply andb_true_iff in Hgs as [Hg _].
  destruct g as [|x g]; [discriminate|]. destruct tl; simpl; discriminate.
Qed.

Lemma groups_is_ascii gs : forallb is_decimal gs = true -> is_ascii (String.concat "_" gs) = true.
Proof.
  induction gs as [|g tl IH]; intros H; [reflexivity|].
  cbn [forallb] in H. apply andb_true_iff in H as [Hg Htl].
  apply is_decimal_all_digits, all_digits_is_ascii in Hg.
  destruct tl as [|g' tl]; [exact Hg|].
  change (String.concat "_" (g :: g' :: tl))
    with (g +:+ String "_" (String.concat "_" (g' :: tl))).
  rewrite is_ascii_append, Hg.
  change (String "_" (String.concat "_" (g' :: tl)))
    with ("_" +:+ String.concat "_" (g' :: tl)).
  rewrite is_ascii_append. now rewrite IH.
Qed.

Lemma long_from_string_literal limit ws1 sg gs ws2 :
  all_space ws1 = true -> all_space ws2 = true -> groups_ok gs = true ->
  long_from_string limit (literal ws1 sg gs ws2) =
    if exceeds_limit limit (String.length (digits_of gs)) then None
    else Some (sign_factor sg * decimal_value (digits_of gs)).
Proof.
  intros Hws1 Hws2 Hgs.
  destruct (groups_head gs ws2 Hgs) as (c & r & Hhead & Hc).
  destruct (digit_facts c Hc) as (Hsp & Hplus & Hminus & Hus & _).
  set (body := String.concat "_" gs +:+ ws2) in *.
  assert (Hscan : scan_digits body false 0 0 =
                  Some (decimal_value (digits_of gs),
                        String.length (digits_of gs), false, ws2))
    by (unfold body; now rewrite scan_digits_groups).
  assert (Hlead : leading_underscore body = false)
    by (rewrite Hhead; exact Hus).
  assert (Hrest : forall sign : Z,
    (if leading_underscore body then None
     else match scan_digits body false 0 0 with
          | None => None
          | Some (v, digits, trailing_underscore, rest) =>
              if trailing_underscore then None
              else if exceeds_limit limit digits then None
              else if (digits =? 0)%nat then None
              else match skip_space rest with
                   | EmptyString => Some (sign * v)
                   | String _ _ => None
                   end
          end) =
    if exceeds_limit limit (String.length (digits_of gs)) then None
    else Some (sign * decimal_value (digits_of gs))).
  { intros sign. rewrite Hlead, Hscan.
    destruct (exceeds_limit limit (String.length (digits_of gs))); [reflexivity|].
    replace (String.length (digits_of gs) =? 0)%nat with false
      by (symmetry; apply Nat.eqb_neq; now apply digits_of_length).
    now rewrite skip_space_blank. }
  unfold long_from_string, literal. rewrite skip_space_all_space by assumption.
  fold body. destruct sg; cbn [sign_text sign_factor].
  - change (EmptyString +:+ body) with body.
    assert (Hskip : skip_space body = body)
      by (rewrite Hhead; cbn [skip_space]; now rewrite Hsp).
    assert (Hsplit : split_sign body = (1, body))
      by (rewrite Hhead; cbn [split_sign]; now rewrite Hplus, Hminus).
    rewrite Hskip, Hsplit. apply Hrest.
  - change ("+" +:+ body) with (String "+" body). apply Hrest.
  - change ("-" +:+ body) with (String "-" body). apply Hrest.
Qed.

Lemma literal_is_ascii ws1 sg gs ws2 :
  all_space ws1 = true -> all_space ws2 = true -> groups_ok gs = true ->
  is_ascii (literal ws1 sg gs ws2) = true.
Proof.
  intros Hws1 Hws2 Hgs. unfold literal.
  rewrite !is_ascii_append.
  rewrite (all_space_is_ascii ws1), (all_space_is_ascii ws2) by assumption.
  rewrite groups_is_ascii by (destruct gs; [discriminate | exact Hgs]).
  now destruct sg.
Qed.

(** X7. Let [PORT] be an integer literal: white space, an optional sign,
    one or more groups of digits separated by single underscores, white
    space. If the literal has more digits than the interpreter's limit,
    start-up raises [ValueError]; otherwise the server is started on the
    number the digits denote, negated after a minus sign, without any check
    of its range. *)
Theorem literal_port
    (st0 : interp) (ws1 : string) (sg : sign) (gs : list string) (ws2 : string) :
  environ st0 !! "PORT" = Some (literal ws1 sg gs ws2) ->
  all_space ws1 = true ->
  all_space ws2 = true ->
  groups_ok gs = true ->
  eval script st0 =
    if exceeds_limit (int_max_str_digits st0) (String.length (digits_of gs))
    then Raise ValueError
    else Ok (UvicornRun "app:app" "0.0.0.0"
               (sign_factor sg * decimal_value (digits_of gs))).
Proof.
  intros Henv Hws1 Hws2 Hgs.
  rewrite script_run, Henv. unfold int_str, int_of_str, transform_to_ascii.
  rewrite literal_is_ascii, long_from_string_literal by assumption.
  now destruct (exceeds_limit _ _).
Qed.

Lemma literal_port_witness :
  eval script (fresh_interp {["PORT" := " -8_080  "]}) =
    Ok (UvicornRun "app:app" "0.0.0.0" (-8080)).
Proof.
  apply (literal_port (fresh_interp {["PORT" := " -8_080  "]})
           " " Minus ["8"; "080"] "  "); vm_compute; reflexivity.
Defined.

(** The other way round: what the conversion accepts is a literal. *)
Lemma digit_value_is_digit c d :
  digit_value c = Some d -> is_digit c = true /\ d = Z.of_N (N_of_ascii c) - 48.
Proof.
  destruct c as [[] [] [] [] [] [] [] []]; vm_compute; intros H;
    try discriminate H; injection H as <-; split; reflexivity.
Qed.

Lemma scan_digits_inv s :
  forall b acc n v d rest,
    scan_digits s b acc n = Some (v, d, false, rest) ->
    exists g gs,
      all_digits g = true /\ forallb is_decimal gs = true
      /\ s = String.concat "_" (g :: gs) +:+ rest
      /\ (b = true -> g <> EmptyString)
      /\ v = decimal_from acc (digits_of (g :: gs))
      /\ d = (n + String.length (digits_of (g :: gs)))%nat.
Proof.
  induction s as [|c s IH]; intros b acc n v d rest H.
  - cbn in H. injection H as <- <- -> <-.
    exists EmptyString, []. repeat split; try reflexivity; try discriminate.
    cbn. lia.
  - cbn [scan_digits] in H.
    destruct (Ascii.eqb c "_") eqn:Hus.
    + apply Ascii.eqb_eq in Hus. subst c.
      destruct b; [discriminate|].
      apply IH in H as (g & gs & Hg & Hgs & Hs & Hne & Hv & Hd).
      specialize (Hne eq_refl).
      exists EmptyString, (g :: gs). repeat split; try discriminate.
      * cbn [forallb]. rewrite Hgs, andb_true_r.
        destruct g; [congruence | exact Hg].
      * rewrite Hs. reflexivity.
      * exact Hv.
      * exact Hd.
    + destruct (digit_value c) as [dv|] eqn:Hdv.
      * destruct (digit_value_is_digit c dv Hdv) as [Hc ->].
        apply IH in H as (g & gs & Hg & Hgs & Hs & _ & Hv & Hd).
        exists (String c g), gs. repeat split; try discriminate.
        -- cbn [all_digits]. now rewrite Hc, Hg.
        -- exact Hgs.
        -- rewrite Hs. now destruct gs.
        -- rewrite Hv. now destruct gs.
        -- rewrite Hd.
           replace (digits_of (String c g :: gs))
             with (String c (digits_of (g :: gs))) by now destruct gs.
           cbn [String.length]. lia.
      * injection H as <- <- -> <-.
        exists EmptyString, []. repeat split; try reflexivity; try discriminate.
        cbn. lia.
Qed.

Lemma skip_space_split s :
  exists ws, all_space ws = true /\ s = ws +:+ skip_space s.
Proof.
  induction s as [|c s (ws & Hws & Hs)].
  - now exists EmptyString.
  - cbn [skip_space]. destruct (Py_ISSPACE c) eqn:Hc.
    + exists (String c ws). split; [cbn; now rewrite Hc, Hws|].
      change (String c ws +:+ skip_space s) with (String c (ws +:+ skip_space s)).
      now rewrite <- Hs.
    + now exists EmptyString.
Qed.

Lemma skip_space_empty s : skip_space s = EmptyString -> all_space s = true.
Proof.
  induction s as [|c s IH]; [reflexivity|]. cbn [skip_space all_space].
  destruct (Py_ISSPACE c); [exact IH | discriminate].
Qed.

Lemma split_sign_inv s sf s2 :
  split_sign s = (sf, s2) ->
  exists sg, s = sign_text sg +:+ s2 /\ sf = sign_factor sg.
Proof.
  unfold split_sign. destruct s as [|c r].
  - intros H. injection H as <- <-. now exists NoSign.
  - destruct (Ascii.eqb c "+") eqn:Hplus.
    + apply Ascii.eqb_eq in Hplus. subst c.
      intros H. injection H as <- <-. now exists Plus.
    + destruct (Ascii.eqb c "-") eqn:Hminus.
      * apply Ascii.eqb_eq in Hminus. subst c.
        intros H. injection H as <- <-. now exists Minus.
      * intros H. injection H as <- <-. now exists NoSign.
Qed.

Lemma long_from_string_inv limit s z :
  long_from_string limit s = Some z ->
  exists ws1 sg gs ws2,
    s = literal ws1 sg gs ws2
    /\ all_space ws1 = true /\ all_space ws2 = true /\ groups_ok gs = true
    /\ exceeds_limit limit (String.length (digits_of gs)) = false
    /\ z = sign_factor sg * decimal_value (digits_of gs).
Proof.
  unfold long_from_string. intros H.
  destruct (skip_space_split s) as (ws1 & Hws1 & Hs).
  destruct (split_sign (skip_space s)) as [sf s2] eqn:Hsplit.
  apply split_sign_inv in Hsplit as (sg & Hs1 & ->).
  destruct (leading_underscore s2) eqn:Hlead; [discriminate|].
  destruct (scan_digits s2 false 0 0) as [[[[v d] t] rest]|] eqn:Hscan; [|discriminate].
  destruct t; [discriminate|].
  destruct (exceeds_limit limit d) eqn:Hlimit; [discriminate|].
  destruct (d =? 0)%nat eqn:Hd0; [discriminate|].
  destruct (skip_space rest) eqn:Hrest; [|discriminate].
  injection H as <-.
  apply scan_digits_inv in Hscan as (g & gs & Hg & Hgs & Hs2 & _ & Hv & Hd).
  cbn [Nat.add] in Hd.
  assert (Hne : g <> EmptyString).
  { intros ->. destruct gs as [|g' gs].
    - subst d. discriminate Hd0.
    - rewrite Hs2 in Hlead. discriminate Hlead. }
  exists ws1, sg, (g :: gs), rest. unfold literal.
  split; [now rewrite <- Hs2, <- Hs1|].
  split; [exact Hws1|]. split; [now apply skip_space_empty|].
  split; [|split].
  - cbn [groups_ok forallb]. rewrite Hgs, andb_true_r.
    destruct g; [congruence | exact Hg].
  - now rewrite <- Hd.
  - now rewrite Hv.
Qed.

(** X8. When [PORT] is ASCII text and the server is started, [PORT] is an
    integer literal (white space, an optional sign, groups of digits
    separated by single underscores, white space) with no more digits than
    the interpreter's limit allows, and the port is the number it denotes:
    no other ASCII text gets past start-up. *)
Theorem accepted_port_is_literal (st0 : interp) (s : string) (c : uvicorn_run) :
  environ st0 !! "PORT" = Some s ->
  is_ascii s = true ->
  eval script st0 = Ok c ->
  exists ws1 sg gs ws2,
    s = literal ws1 sg gs ws2
    /\ all_space ws1 = true /\ all_space ws2 = true /\ groups_ok gs = true
    /\ exceeds_limit (int_max_str_digits st0) (String.length (digits_of gs)) = false
    /\ run_port c = sign_factor sg * decimal_value (digits_of gs).
Proof.
  intros Henv Hascii. rewrite script_run, Henv.
  unfold int_str, int_of_str, transform_to_ascii. rewrite Hascii.
  destruct (long_from_string (int_max_str_digits st0) s) as [z|] eqn:Hz;
    [|discriminate].
  intros H. injection H as <-. cbn [run_port].
  now apply long_from_string_inv.
Qed.

Lemma accepted_port_is_literal_witness :
  exists ws1 sg gs ws2,
    "+8_000" = literal ws1 sg gs ws2
    /\ all_space ws1 = true /\ all_space ws2 = true /\ groups_ok gs = true
    /\ exceeds_limit 4300 (String.length (digits_of gs)) = false
    /\ 8000 = sign_factor sg * decimal_value (digits_of gs).
Proof.
  apply (accepted_port_is_literal (fresh_interp {["PORT" := "+8_000"]}) "+8_000"
           (UvicornRun "app:app" "0.0.0.0" 8000)); vm_compute; reflexivity.
Defined.
